(** * Customer account handlers (src/controllers/CustomerController.ts)

    A shallow embedding of the six request handlers of the customer
    controller: [CustomerSignUp], [CustomerLogin], [CustomerVerify],
    [RequestOtp], [GetCustomerProfile] and [UpdateCustomerProfile].

    The handlers are written in a state monad over a [World] that holds the
    Customer collection and the SMS outbox.  The modules the controller
    imports but that are not part of the controller file (the DTO
    validators, the credential and token utilities) and the two built-ins
    of the JavaScript runtime it calls ([toLowerCase], [parseInt]) are
    taken as an interface, [Utility], so that what is proved holds for
    every implementation of them; the values of the calls that draw on randomness
    or on the clock ([GenerateSalt()], [GenerateOtp()], [new Date()]) are
    handed to a handler in an [Env]. *)

From Stdlib Require Import ZArith List String Ascii Bool Lia.
Import ListNotations.

Local Open Scope string_scope.
Local Open Scope Z_scope.

(** ** The JavaScript values and built-ins the controller relies on *)

Module Js.

(** The values a parsed JSON request body can hold in a field.
    [Undefined] is an absent field; a number is carried as its decimal
    literal, mantissa times ten to the exponent. *)
#[warnings="-register-all"]
Inductive value : Type :=
| Undefined
| Null
| Bool (b : bool)
| Num (mantissa exponent : Z)
| Str (s : string)
| Arr (items : list value)
| Obj (fields : list (string * value)).

(** The two built-ins the controller calls, as the runtime provides them.
    A [string] stands for a JavaScript string, equal strings for equal
    JavaScript strings.

    [toLowerCase s] is [s.toLowerCase()].

    [parseInt v] is [parseInt(v)] with one argument: [Some n] when the
    result is the Number whose value is the integer [n], [None] when the
    result is NaN (or an infinity, which like NaN equals no stored
    integer).  The four laws are the cases in which ECMAScript fixes the
    result to NaN whatever the engine: the strings "undefined", "null",
    "true", "false" and "" have no leading digit. *)
Class Runtime : Type := {
  toLowerCase : string -> string;
  parseInt : value -> option Z;
  parseInt_undefined : parseInt Undefined = None;
  parseInt_null : parseInt Null = None;
  parseInt_boolean : forall b : bool, parseInt (Bool b) = None;
  parseInt_empty : parseInt (Str "") = None
}.

End Js.

(** ** Data model *)

(** A store-assigned document id. *)
Definition ObjectId : Type := nat.

(** A point in time, in milliseconds, as [Date] values compare. *)
Definition Date : Type := Z.

(** The Customer model: the documents and the collection with the
    accessors the controller calls. *)
Module Customer.

Record doc : Type := mk {
  _id : ObjectId;
  email : string;
  password : string;
  salt : string;
  phone : string;
  otp : Z;
  otpExpiry : Date;
  verified : bool;
  firstName : string;
  lastName : string;
  address : string;
  lat : Z;
  lng : Z
}.

(** The documents in their natural (insertion) order. *)
Definition collection : Type := list doc.

(** [Customer.findOne({ email: e })]: the first document whose email is
    exactly [e]. *)
Fixpoint findOne (e : string) (db : collection) : option doc :=
  match db with
  | [] => None
  | c :: rest => if String.eqb (email c) e then Some c else findOne e rest
  end.

(** [Customer.findById(id)]. *)
Fixpoint findById (id : ObjectId) (db : collection) : option doc :=
  match db with
  | [] => None
  | c :: rest => if Nat.eqb (_id c) id then Some c else findById id rest
  end.

(** An id no document of the collection has. *)
Definition fresh_id (db : collection) : ObjectId :=
  S (fold_right (fun c m => Nat.max (_id c) m) O db).

(** [Customer.create(fields)]: the store assigns the id, appends the
    document and resolves with it.  (An insertion that fails rejects; the
    result type keeps the falsy case the controller tests for.) *)
Definition create (fields : ObjectId -> doc) (db : collection)
  : option doc * collection :=
  let c := fields (fresh_id db) in
  (Some c, (db ++ [c])%list).

(** [profile.save()]: writes the document back over the stored one with
    the same id and returns it. *)
Fixpoint save (p : doc) (db : collection) : collection :=
  match db with
  | [] => []
  | c :: rest => if Nat.eqb (_id c) (_id p) then p :: rest else c :: save p rest
  end.

(** The in-place assignments of the handlers. *)
Definition set_verified (v : bool) (p : doc) : doc :=
  mk (_id p) (email p) (password p) (salt p) (phone p) (otp p) (otpExpiry p)
     v (firstName p) (lastName p) (address p) (lat p) (lng p).

Definition set_otp (o : Z) (x : Date) (p : doc) : doc :=
  mk (_id p) (email p) (password p) (salt p) (phone p) o x
     (verified p) (firstName p) (lastName p) (address p) (lat p) (lng p).

Definition set_profile (f l a : string) (p : doc) : doc :=
  mk (_id p) (email p) (password p) (salt p) (phone p) (otp p) (otpExpiry p)
     (verified p) f l a (lat p) (lng p).

End Customer.

(** What the auth middleware leaves in [req.user], and what a signed token
    embeds. *)
Module Payload.
Record t : Type := mk {
  _id : ObjectId;
  email : string;
  verified : bool
}.
End Payload.

(** [req.body].  The fields the DTO classes declare are taken at their
    declared type, [string]; [otp], which no DTO covers and which goes
    through [parseInt], is any JSON value. *)
Module Body.
Record t : Type := mk {
  email : string;
  phone : string;
  password : string;
  otp : Js.value;
  firstName : string;
  lastName : string;
  address : string
}.
End Body.

Record Request : Type := mkRequest {
  body : Body.t;
  user : option Payload.t
}.

(** One entry of the list the input validator returns. *)
Definition ValidationError : Type := string.

(** The JSON bodies the handlers answer with. *)
Inductive ResBody : Type :=
| Errors (inputErrors : list ValidationError)
| Message (message : string)
| Session (signature : string) (verified : bool) (email : string)
| Profile (profile : Customer.doc).

Record Response : Type := mkResponse {
  status : Z;
  json : ResBody
}.

(** The result of [GenerateOtp()]. *)
Module Otp.
Record t : Type := mk {
  otp : Z;
  expiry : Date
}.
End Otp.

(** What the calls without arguments return during one request. *)
Record Env : Type := mkEnv {
  now : Date;            (* new Date() *)
  GenerateSalt : string; (* await GenerateSalt() *)
  GenerateOtp : Otp.t    (* GenerateOtp() *)
}.

(** The DTO classes a request body is validated against. *)
Inductive Dto : Type :=
| CreateCustomerInput
| CustomerEditInput
| CustomerLoginInput.

(** What the controller calls and does not define, as functions of their
    arguments: the built-ins of the runtime, [validate(plainToClass(dto,
    body))] and three of the utilities. *)
Class Utility : Type := {
  runtime :: Js.Runtime;
  validate : Dto -> Body.t -> list ValidationError;
  GeneratePassword : string -> string -> string;
  ValidatePassword : string -> string -> bool;
  GenerateSignature : Payload.t -> string
}.

(** ** The world and the monad of the handlers *)

Record World : Type := mkWorld {
  customers : Customer.collection;
  outbox : list (Z * string)       (* the SMS handed to the provider *)
}.

Definition M (A : Type) : Type := World -> A * World.

Definition ret {A : Type} (a : A) : M A := fun w => (a, w).

Definition bind {A B : Type} (m : M A) (k : A -> M B) : M B :=
  fun w => let (a, w') := m w in k a w'.

Notation "x <- m ;; k" := (bind m (fun x => k))
  (at level 61, m at next level, right associativity).
Notation "m ;;; k" := (bind m (fun _ => k))
  (at level 61, right associativity).

Definition findOne (e : string) : M (option Customer.doc) :=
  fun w => (Customer.findOne e (customers w), w).

Definition findById (id : ObjectId) : M (option Customer.doc) :=
  fun w => (Customer.findById id (customers w), w).

Definition create (fields : ObjectId -> Customer.doc) : M (option Customer.doc) :=
  fun w =>
    let (c, db) := Customer.create fields (customers w) in
    (c, mkWorld db (outbox w)).

Definition save (p : Customer.doc) : M Customer.doc :=
  fun w => (p, mkWorld (Customer.save p (customers w)) (outbox w)).

(** Modelled from the spec: [SendOtp] of the utility module, which is not
    in the controller file; it delivers the code to the phone through the
    SMS provider. *)
Definition SendOtp (otp : Z) (phone : string) : M unit :=
  fun w => (tt, mkWorld (customers w) (outbox w ++ [(otp, phone)])%list).

(** [res.status(code).json(b)] *)
Definition res_status_json (code : Z) (b : ResBody) : M Response :=
  ret (mkResponse code b).

Definition token_of (c : Customer.doc) : Payload.t :=
  Payload.mk (Customer._id c) (Customer.email c) (Customer.verified c).

(** ** The handlers

    Each handler takes the request and answers with
    [res.status(..).json(..)]; the early [return]s of the source are the
    branches of the conditionals.  The awaited calls are modelled as
    resolving, so the [catch] blocks of [CustomerSignUp] and
    [CustomerVerify], which hand a rejection to [next], have no counterpart
    here. *)

Section Handlers.

Context {U : Utility}.

Definition CustomerSignUp (env : Env) (req : Request) : M Response :=
  let inputErrors := validate CreateCustomerInput (body req) in
  if Nat.ltb 0 (List.length inputErrors)
  then res_status_json 400 (Errors inputErrors)
  else
    let email := Body.email (body req) in
    let phone := Body.phone (body req) in
    let password := Body.password (body req) in
    existingCustomer <- findOne (Js.toLowerCase email) ;;
    match existingCustomer with
    | Some _ =>
        res_status_json 400 (Message "This email address is already in use!")
    | None =>
        let salt := GenerateSalt env in
        let userPassword := GeneratePassword password salt in
        let otp := Otp.otp (GenerateOtp env) in
        let expiry := Otp.expiry (GenerateOtp env) in
        createdCustomer <- create (fun id =>
          {| Customer._id := id;
             Customer.email := Js.toLowerCase email;
             Customer.password := userPassword;
             Customer.phone := phone;
             Customer.salt := salt;
             Customer.otp := otp;
             Customer.otpExpiry := expiry;
             Customer.firstName := "";
             Customer.lastName := "";
             Customer.address := "";
             Customer.verified := false;
             Customer.lat := 0;
             Customer.lng := 0 |}) ;;
        match createdCustomer with
        | Some createdCustomer =>
            SendOtp otp phone ;;;
            let signature := GenerateSignature (token_of createdCustomer) in
            res_status_json 201
              (Session signature (Customer.verified createdCustomer)
                       (Customer.email createdCustomer))
        | None => res_status_json 400 (Message "Error while signing up!")
        end
    end.

Definition CustomerLogin (env : Env) (req : Request) : M Response :=
  let loginErrors := validate CustomerLoginInput (body req) in
  if Nat.ltb 0 (List.length loginErrors)
  then res_status_json 400 (Errors loginErrors)
  else
    let email := Body.email (body req) in
    let password := Body.password (body req) in
    customer <- findOne email ;;
    match customer with
    | Some customer =>
        if ValidatePassword password (Customer.password customer)
        then
          let signature := GenerateSignature (token_of customer) in
          res_status_json 200
            (Session signature (Customer.verified customer)
                     (Customer.email customer))
        else res_status_json 400 (Message "Invalid credentials!")
    | None => res_status_json 400 (Message "Invalid credentials!")
    end.

(** The condition of the [if] of [CustomerVerify], after [profile &&]. *)
Definition otp_accepted (env : Env) (otp : Js.value) (profile : Customer.doc)
  : bool :=
  match Js.parseInt otp with
  | Some n => (Customer.otp profile =? n) && (now env <=? Customer.otpExpiry profile)
  | None => false
  end.

Definition CustomerVerify (env : Env) (req : Request) : M Response :=
  let otp := Body.otp (body req) in
  match user req with
  | Some customer =>
      profile <- findById (Payload._id customer) ;;
      match profile with
      | Some profile =>
          if otp_accepted env otp profile
          then
            updatedProfile <- save (Customer.set_verified true profile) ;;
            let signature := GenerateSignature (token_of updatedProfile) in
            res_status_json 200
              (Session signature (Customer.verified updatedProfile)
                       (Customer.email updatedProfile))
          else res_status_json 400 (Message "OPT verification failed!")
      | None => res_status_json 400 (Message "OPT verification failed!")
      end
  | None => res_status_json 400 (Message "OPT verification failed!")
  end.

Definition RequestOtp (env : Env) (req : Request) : M Response :=
  match user req with
  | Some customer =>
      profile <- findById (Payload._id customer) ;;
      match profile with
      | Some profile =>
          let otp := Otp.otp (GenerateOtp env) in
          let expiry := Otp.expiry (GenerateOtp env) in
          let profile := Customer.set_otp otp expiry profile in
          save profile ;;;
          SendOtp otp (Customer.phone profile) ;;;
          res_status_json 200
            (Message "OTP sent to your registered phone number.")
      | None => res_status_json 400 (Message "Error generateing OTP!")
      end
  | None => res_status_json 400 (Message "Error generateing OTP!")
  end.

Definition GetCustomerProfile (env : Env) (req : Request) : M Response :=
  match user req with
  | Some customer =>
      profile <- findById (Payload._id customer) ;;
      match profile with
      | Some profile => res_status_json 200 (Profile profile)
      | None => res_status_json 400 (Message "Error getting user profile!")
      end
  | None => res_status_json 400 (Message "Error getting user profile!")
  end.

Definition UpdateCustomerProfile (env : Env) (req : Request) : M Response :=
  match user req with
  | Some customer =>
      profile <- findById (Payload._id customer) ;;
      match profile with
      | Some profile =>
          let inputErrors := validate CustomerEditInput (body req) in
          if Nat.ltb 0 (List.length inputErrors)
          then res_status_json 400 (Errors inputErrors)
          else
            let firstName := Body.firstName (body req) in
            let lastName := Body.lastName (body req) in
            let address := Body.address (body req) in
            updatedProfile <-
              save (Customer.set_profile firstName lastName address profile) ;;
            res_status_json 200 (Profile updatedProfile)
      | None => res_status_json 400 (Message "Error updating profile!")
      end
  | None => res_status_json 400 (Message "Error updating profile!")
  end.

End Handlers.

(** ** Sequences of calls *)

Module Route.
Inductive t : Type :=
| SignUp
| Login
| VerifyOtp
| RequestOtp
| GetProfile
| UpdateProfile.
End Route.

Record Call : Type := mkCall {
  route : Route.t;
  env : Env;
  request : Request
}.

Definition handle {U : Utility} (c : Call) : M Response :=
  match route c with
  | Route.SignUp => CustomerSignUp
  | Route.Login => CustomerLogin
  | Route.VerifyOtp => CustomerVerify
  | Route.RequestOtp => RequestOtp
  | Route.GetProfile => GetCustomerProfile
  | Route.UpdateProfile => UpdateCustomerProfile
  end (env c) (request c).

(** The world after the calls have been served one after the other. *)
Fixpoint run {U : Utility} (calls : list Call) (w : World) : World :=
  match calls with
  | [] => w
  | c :: rest => run rest (snd (handle c w))
  end.

(** The stored [verified] flag of the record with this id ([false] while
    there is no such record). *)
Definition is_verified (id : ObjectId) (w : World) : bool :=
  match Customer.findById id (customers w) with
  | Some p => Customer.verified p
  | None => false
  end.

(** How many of the calls take the flag from [false] to [true], and how
    many take it from [true] to [false]. *)
Fixpoint rises {U : Utility} (id : ObjectId) (calls : list Call) (w : World) : nat :=
  match calls with
  | [] => O
  | c :: rest =>
      let w' := snd (handle c w) in
      ((if negb (is_verified id w) && is_verified id w' then 1 else 0)
       + rises id rest w')%nat
  end.

Fixpoint falls {U : Utility} (id : ObjectId) (calls : list Call) (w : World) : nat :=
  match calls with
  | [] => O
  | c :: rest =>
      let w' := snd (handle c w) in
      ((if is_verified id w && negb (is_verified id w') then 1 else 0)
       + falls id rest w')%nat
  end.

(** ** A concrete instance, for examples *)

(** An instance of the runtime for the examples; the properties of the
    handlers are proved for every runtime.  It agrees with JavaScript on the strings made of
    ASCII characters and, for [parseInt], on numerals below 2^53, on the
    numbers written as an integer literal up to 2^53 in magnitude, on
    absent, null and boolean values, on objects and on arrays of such
    values; the examples use no other input. *)
Module AsciiJs.

Definition lower_ascii (c : ascii) : ascii :=
  let n := nat_of_ascii c in
  if (Nat.leb 65 n && Nat.leb n 90)%bool then ascii_of_nat (n + 32) else c.

Fixpoint toLowerCase (s : string) : string :=
  match s with
  | EmptyString => EmptyString
  | String c t => String (lower_ascii c) (toLowerCase t)
  end.

(** The ASCII white space [parseInt] skips in front of the number: TAB, LF,
    VT, FF, CR, SP. *)
Definition is_white_space (c : ascii) : bool :=
  let n := nat_of_ascii c in
  (Nat.leb 9 n && Nat.leb n 13 || Nat.eqb n 32)%bool.

Fixpoint trim_start (s : string) : string :=
  match s with
  | String c t => if is_white_space c then trim_start t else s
  | EmptyString => EmptyString
  end.

(** The value of a character as a digit: 0-9, then a-z and A-Z as 10-35. *)
Definition digit_value (c : ascii) : option Z :=
  let n := nat_of_ascii c in
  if (Nat.leb 48 n && Nat.leb n 57)%bool then Some (Z.of_nat (n - 48))
  else if (Nat.leb 97 n && Nat.leb n 122)%bool then Some (Z.of_nat (n - 87))
  else if (Nat.leb 65 n && Nat.leb n 90)%bool then Some (Z.of_nat (n - 55))
  else None.

(** The longest prefix of [s] made of radix-[R] digits, read as a number;
    [acc] is what has been read so far, [None] while no digit was seen. *)
Fixpoint digits (R : Z) (s : string) (acc : option Z) : option Z :=
  match s with
  | EmptyString => acc
  | String c t =>
      match digit_value c with
      | Some d =>
          if d <? R
          then digits R t (Some (match acc with
                                 | Some a => a * R + d
                                 | None => d
                                 end))
          else acc
      | None => acc
      end
  end.

Definition strip_sign (s : string) : Z * string :=
  match s with
  | String "-" t => (-1, t)
  | String "+" t => (1, t)
  | _ => (1, s)
  end.

(** With no radix given the radix is 10, or 16 after a [0x] or [0X]. *)
Definition strip_prefix (s : string) : Z * string :=
  match s with
  | String "0" (String "x" t) => (16, t)
  | String "0" (String "X" t) => (16, t)
  | _ => (10, s)
  end.

Definition parse_string (s : string) : option Z :=
  let (sign, s1) := strip_sign (trim_start s) in
  let (R, s2) := strip_prefix s1 in
  match digits R s2 None with
  | Some m => Some (sign * m)
  | None => None
  end.

(** A string is parsed; an integer literal up to 2^53 is itself; an array
    is read up to its first comma, that is as its first item; an absent
    value, null, a boolean and an object print without a leading digit. *)
Fixpoint parseInt (v : Js.value) : option Z :=
  match v with
  | Js.Str s => parse_string s
  | Js.Num m e =>
      if ((e =? 0) && (Z.abs m <=? 9007199254740992))%bool
      then Some m else None
  | Js.Arr (x :: _) => parseInt x
  | _ => None
  end.

Definition runtime : Js.Runtime := {|
  Js.toLowerCase := toLowerCase;
  Js.parseInt := parseInt;
  Js.parseInt_undefined := eq_refl;
  Js.parseInt_null := eq_refl;
  Js.parseInt_boolean := fun _ => eq_refl;
  Js.parseInt_empty := eq_refl
|}.

End AsciiJs.

Module Sample.

(** Validators in the manner of the DTO classes: a signup needs an email,
    a phone and a password, a login an email and a password, an edit a
    first name. *)
Definition required (field : string) (v : string) : list ValidationError :=
  if String.eqb v "" then [field ++ " should not be empty"] else [].

Definition shape_errors (d : Dto) (b : Body.t) : list ValidationError :=
  match d with
  | CreateCustomerInput =>
      required "email" (Body.email b) ++ required "phone" (Body.phone b)
        ++ required "password" (Body.password b)
  | CustomerLoginInput =>
      required "email" (Body.email b) ++ required "password" (Body.password b)
  | CustomerEditInput => required "firstName" (Body.firstName b)
  end%list.

Definition utility : Utility := {|
  runtime := AsciiJs.runtime;
  validate := shape_errors;
  GeneratePassword := fun plain salt => salt ++ "$" ++ plain;
  ValidatePassword := fun plain hash =>
    match index 0 "$" hash with
    | Some n => String.eqb (substring (S n) (String.length hash) hash) plain
    | None => false
    end;
  GenerateSignature := fun payload =>
    "token:" ++ Payload.email payload ++ ":"
      ++ (if Payload.verified payload then "verified" else "unverified")
|}.

(** A registered customer who has not verified the phone yet. *)
Definition alice : Customer.doc :=
  {| Customer._id := 1%nat;
     Customer.email := "a@x.com";
     Customer.password := "salt$pw";
     Customer.salt := "salt";
     Customer.phone := "555";
     Customer.otp := 123456;
     Customer.otpExpiry := 2000;
     Customer.verified := false;
     Customer.firstName := "Al";
     Customer.lastName := "Smith";
     Customer.address := "Old Rd";
     Customer.lat := 0;
     Customer.lng := 0 |}.

Definition world : World := mkWorld [alice] [].

Definition empty_world : World := mkWorld [] [].

Definition session : Payload.t := Payload.mk 1%nat "a@x.com" false.

(** A session whose customer is not in the store. *)
Definition stale_session : Payload.t := Payload.mk 7%nat "gone@x.com" false.

Definition env : Env := mkEnv 1000 "pepper" (Otp.mk 654321 1800000).

Definition later : Env := mkEnv 1500 "pepper" (Otp.mk 111111 1900000).

Definition no_body : Body.t := Body.mk "" "" "" Js.Undefined "" "" "".

Definition signup_body : Body.t :=
  Body.mk "A@x.com" "555" "pw" Js.Undefined "" "" "".

(** A signup with alice's email and no password. *)
Definition bad_signup_body : Body.t :=
  Body.mk "a@X.com" "555" "" Js.Undefined "" "" "".

(** A second signup for alice's email, in another case. *)
Definition second_signup_body : Body.t :=
  Body.mk "a@X.com" "556" "pw2" Js.Undefined "" "" "".

(** A login with alice's email in the case she typed it at signup. *)
Definition cased_login_body : Body.t :=
  Body.mk "A@x.com" "" "pw" Js.Undefined "" "" "".

Definition login_body : Body.t :=
  Body.mk "a@x.com" "" "pw" Js.Undefined "" "" "".

(** A login for an unknown email and no password. *)
Definition bad_login_body : Body.t :=
  Body.mk "nobody@x.com" "" "" Js.Undefined "" "" "".

Definition otp_body : Body.t :=
  Body.mk "" "" "" (Js.Str "123456") "" "" "".

Definition edit_body : Body.t :=
  Body.mk "" "" "" Js.Undefined "Alice" "" "1 Main St".

End Sample.

(** ** Vocabulary of the properties *)

(** The profile a handler behind the auth middleware works on: the record
    [findById] returns for the id in [req.user], when there is a
    [req.user] and there is such a record. *)
Definition authenticated_profile (usr : option Payload.t) (w : World)
  : option Customer.doc :=
  match usr with
  | Some customer => Customer.findById (Payload._id customer) (customers w)
  | None => None
  end.

(** Some record of the store has this email. *)
Definition email_in_use (e : string) (w : World) : Prop :=
  exists c, In c (customers w) /\ Customer.email c = e.

(** Two documents that agree on the identity, credential and contact
    fields, which no handler assigns after signup. *)
Definition same_account (p p' : Customer.doc) : Prop :=
  Customer._id p' = Customer._id p
  /\ Customer.email p' = Customer.email p
  /\ Customer.password p' = Customer.password p
  /\ Customer.salt p' = Customer.salt p
  /\ Customer.phone p' = Customer.phone p
  /\ Customer.lat p' = Customer.lat p
  /\ Customer.lng p' = Customer.lng p.

Definition same_otp (p p' : Customer.doc) : Prop :=
  Customer.otp p' = Customer.otp p
  /\ Customer.otpExpiry p' = Customer.otpExpiry p.

Definition same_names (p p' : Customer.doc) : Prop :=
  Customer.firstName p' = Customer.firstName p
  /\ Customer.lastName p' = Customer.lastName p
  /\ Customer.address p' = Customer.address p.

(** Unfolds a handler down to the store accessors. *)
Ltac unfold_handler :=
  unfold CustomerSignUp, CustomerLogin, CustomerVerify, RequestOtp,
    GetCustomerProfile, UpdateCustomerProfile, bind, ret, findOne, findById,
    create, save, SendOtp, res_status_json, token_of; simpl.

(** ** Vocabulary of the properties of sequences of calls *)

(** The emails of the collection are pairwise distinct. *)
Definition unique_emails (w : World) : Prop :=
  NoDup (map Customer.email (customers w)).

(** Every stored email is in lower case. *)
Definition lowercase_emails {U : Utility} (w : World) : Prop :=
  forall c, In c (customers w) ->
            Js.toLowerCase (Customer.email c) = Customer.email c.

(** The document [CustomerSignUp] hands to [Customer.create], with the id
    the store assigns. *)
Definition signup_record {U : Utility} (env : Env) (b : Body.t) (id : ObjectId)
  : Customer.doc :=
  {| Customer._id := id;
     Customer.email := Js.toLowerCase (Body.email b);
     Customer.password := GeneratePassword (Body.password b) (GenerateSalt env);
     Customer.phone := Body.phone b;
     Customer.salt := GenerateSalt env;
     Customer.otp := Otp.otp (GenerateOtp env);
     Customer.otpExpiry := Otp.expiry (GenerateOtp env);
     Customer.firstName := "";
     Customer.lastName := "";
     Customer.address := "";
     Customer.verified := false;
     Customer.lat := 0;
     Customer.lng := 0 |}.

(** The call answered with a success status that hands an otp to the SMS
    collaborator: a signup answered 201 or an otp request answered 200. *)
Definition sends_otp (c : Call) (res : Response) : Prop :=
  (route c = Route.SignUp /\ status res = 201)
  \/ (route c = Route.RequestOtp /\ status res = 200).

(** * Properties *)

(** ** The sample runtime on examples *)

Example parseInt_digits : AsciiJs.parseInt (Js.Str "123456") = Some 123456.
Proof. reflexivity. Qed.

Example parseInt_number : AsciiJs.parseInt (Js.Num 123456 0) = Some 123456.
Proof. reflexivity. Qed.

Example parseInt_stops_at_non_digit :
  AsciiJs.parseInt (Js.Str "  42.9 units") = Some 42.
Proof. reflexivity. Qed.

Example parseInt_hexadecimal : AsciiJs.parseInt (Js.Str "-0x1F") = Some (-31).
Proof. reflexivity. Qed.

Example parseInt_array :
  AsciiJs.parseInt (Js.Arr [Js.Str "123456"; Js.Str "7"]) = Some 123456.
Proof. reflexivity. Qed.

Example parseInt_NaN :
  AsciiJs.parseInt (Js.Str "otp") = None
  /\ AsciiJs.parseInt (Js.Obj [("otp", Js.Str "1")]) = None
  /\ AsciiJs.parseInt (Js.Arr []) = None.
Proof. repeat split. Qed.

Example toLowerCase_email : AsciiJs.toLowerCase "A@X.com" = "a@x.com".
Proof. reflexivity. Qed.

(** ** The collection accessors *)

Section StoreFacts.

Implicit Types (db : Customer.collection) (p q c : Customer.doc) (id : ObjectId).

Lemma findById_id db id p :
  Customer.findById id db = Some p -> Customer._id p = id.
Proof.
  induction db as [|c rest IH]; simpl; [discriminate|].
  destruct (Nat.eqb_spec (Customer._id c) id) as [E|E]; [|exact IH].
  intros [= <-]. exact E.
Qed.

Lemma findById_In db id p :
  Customer.findById id db = Some p -> In p db.
Proof.
  induction db as [|c rest IH]; simpl; [discriminate|].
  destruct (Nat.eqb (Customer._id c) id).
  - intros [= <-]. now left.
  - intros H. right. now apply IH.
Qed.

(** What a lookup sees after a [save]. *)
Lemma findById_save db q id :
  Customer.findById id (Customer.save q db) =
  match Customer.findById (Customer._id q) db with
  | Some _ => if Nat.eqb (Customer._id q) id then Some q
              else Customer.findById id db
  | None => Customer.findById id db
  end.
Proof.
  induction db as [|c rest IH]; simpl; [reflexivity|].
  destruct (Nat.eqb_spec (Customer._id c) (Customer._id q)) as [E|E]; simpl.
  - rewrite E. now destruct (Nat.eqb (Customer._id q) id).
  - rewrite IH.
    destruct (Nat.eqb_spec (Customer._id c) id) as [F|F]; [|reflexivity].
    destruct (Customer.findById (Customer._id q) rest); [|reflexivity].
    destruct (Nat.eqb_spec (Customer._id q) id); [congruence|reflexivity].
Qed.

Lemma findById_save_same db q id p :
  Customer.findById id db = Some p -> Customer._id q = id ->
  Customer.findById id (Customer.save q db) = Some q.
Proof.
  intros H E. rewrite findById_save, E, H, Nat.eqb_refl. reflexivity.
Qed.

Lemma findById_save_other db q id :
  id <> Customer._id q ->
  Customer.findById id (Customer.save q db) = Customer.findById id db.
Proof.
  intros E. rewrite findById_save.
  destruct (Customer.findById (Customer._id q) db); [|reflexivity].
  destruct (Nat.eqb_spec (Customer._id q) id); [congruence|reflexivity].
Qed.

Lemma save_length db q :
  List.length (Customer.save q db) = List.length db.
Proof.
  induction db as [|c rest IH]; simpl; [reflexivity|].
  destruct (Nat.eqb (Customer._id c) (Customer._id q)); simpl; congruence.
Qed.

(** What a lookup sees after a [create]. *)
Lemma findById_app db c id :
  Customer.findById id (db ++ [c])%list =
  match Customer.findById id db with
  | Some p => Some p
  | None => if Nat.eqb (Customer._id c) id then Some c else None
  end.
Proof.
  induction db as [|d rest IH]; simpl; [reflexivity|].
  now destruct (Nat.eqb (Customer._id d) id).
Qed.

Lemma findOne_In db e c :
  Customer.findOne e db = Some c -> In c db /\ Customer.email c = e.
Proof.
  induction db as [|d rest IH]; simpl; [discriminate|].
  destruct (String.eqb_spec (Customer.email d) e) as [E|E].
  - intros [= <-]. split; [now left|exact E].
  - intros H. destruct (IH H). split; [now right|assumption].
Qed.

Lemma findOne_None db e :
  Customer.findOne e db = None <->
  (forall c, In c db -> Customer.email c <> e).
Proof.
  induction db as [|d rest IH]; simpl.
  - split; [intros _ c []|reflexivity].
  - destruct (String.eqb_spec (Customer.email d) e) as [E|E].
    + split; [discriminate|]. intros H. now destruct (H d (or_introl eq_refl)).
    + rewrite IH. split.
      * intros H c [<-|Hc]; [exact E|now apply H].
      * intros H c Hc. apply H. now right.
Qed.

Lemma findOne_used db e c :
  In c db -> Customer.email c = e ->
  exists c', Customer.findOne e db = Some c'.
Proof.
  intros Hin He.
  destruct (Customer.findOne e db) as [c'|] eqn:F; [now exists c'|].
  rewrite findOne_None in F. now destruct (F c Hin).
Qed.

Lemma fresh_id_above db c :
  In c db -> (Customer._id c < Customer.fresh_id db)%nat.
Proof.
  unfold Customer.fresh_id.
  induction db as [|d rest IH]; simpl; [intros []|].
  intros [<-|H]; [lia|]. specialize (IH H). lia.
Qed.

Lemma findById_fresh db :
  Customer.findById (Customer.fresh_id db) db = None.
Proof.
  destruct (Customer.findById (Customer.fresh_id db) db) as [p|] eqn:F;
    [|reflexivity].
  pose proof (findById_id _ _ _ F) as E.
  pose proof (fresh_id_above _ _ (findById_In _ _ _ F)). lia.
Qed.

End StoreFacts.

(** ** OTP verification *)

Section VerifyFacts.

Context {U : Utility}.

Lemma otp_accepted_iff (env : Env) (v : Js.value) (p : Customer.doc) :
  otp_accepted env v p = true <->
  Js.parseInt v = Some (Customer.otp p) /\ now env <= Customer.otpExpiry p.
Proof.
  unfold otp_accepted. destruct (Js.parseInt v) as [n|].
  - rewrite andb_true_iff, Z.eqb_eq, Z.leb_le.
    split; intros [A B]; split; congruence.
  - split; [discriminate|]. intros [A _]. discriminate.
Qed.

Lemma CustomerVerify_accepted
  (env : Env) (b : Body.t) (u : Payload.t) (w : World) (p : Customer.doc) :
  Customer.findById (Payload._id u) (customers w) = Some p ->
  otp_accepted env (Body.otp b) p = true ->
  CustomerVerify env (mkRequest b (Some u)) w =
  (mkResponse 200
     (Session
        (GenerateSignature
           (Payload.mk (Customer._id p) (Customer.email p) true))
        true (Customer.email p)),
   mkWorld (Customer.save (Customer.set_verified true p) (customers w))
           (outbox w)).
Proof.
  intros Hp Hacc. unfold_handler. rewrite Hp, Hacc. reflexivity.
Qed.

Lemma CustomerVerify_rejected
  (env : Env) (b : Body.t) (usr : option Payload.t) (w : World) :
  match authenticated_profile usr w with
  | Some p => otp_accepted env (Body.otp b) p = false
  | None => True
  end ->
  CustomerVerify env (mkRequest b usr) w =
  (mkResponse 400 (Message "OPT verification failed!"), w).
Proof.
  unfold_handler. destruct usr as [u|]; simpl; [|reflexivity].
  destruct (Customer.findById (Payload._id u) (customers w)) as [p|];
    [|reflexivity].
  intros ->. reflexivity.
Qed.


(** C7.  A successful [CustomerVerify] writes [verified] and nothing
    else: the stored record keeps its otp, its otpExpiry and every other
    field, the other records and the SMS outbox are untouched.  So the
    same code, submitted again by the same customer while the expiry has
    not elapsed, is accepted again with status 200. *)
Theorem CustomerVerify_writes_verified_only
  (env env2 : Env) (b : Body.t) (u u2 : Payload.t) (w : World)
  (p : Customer.doc) :
  Customer.findById (Payload._id u) (customers w) = Some p ->
  Js.parseInt (Body.otp b) = Some (Customer.otp p) ->
  now env <= Customer.otpExpiry p ->
  let w' := snd (CustomerVerify env (mkRequest b (Some u)) w) in
  (exists p',
      Customer.findById (Payload._id u) (customers w') = Some p'
      /\ Customer.verified p' = true
      /\ same_otp p p' /\ same_account p p' /\ same_names p p')
  /\ (forall id, id <> Payload._id u ->
       Customer.findById id (customers w') = Customer.findById id (customers w))
  /\ List.length (customers w') = List.length (customers w)
  /\ outbox w' = outbox w
  /\ (Payload._id u2 = Payload._id u ->
      now env2 <= Customer.otpExpiry p ->
      status (fst (CustomerVerify env2 (mkRequest b (Some u2)) w')) = 200).
Proof.
  intros Hp Hotp Hnow w'.
  assert (otp_accepted env (Body.otp b) p = true) as Hacc
    by (apply otp_accepted_iff; now split).
  pose proof (findById_id _ _ _ Hp) as Hid.
  subst w'. rewrite (CustomerVerify_accepted env b u w p Hp Hacc). simpl.
  assert (Customer.findById (Payload._id u)
            (Customer.save (Customer.set_verified true p) (customers w))
          = Some (Customer.set_verified true p)) as Hp'
    by (eapply findById_save_same; [exact Hp|exact Hid]).
  split; [|split; [|split; [|split]]].
  - exists (Customer.set_verified true p).
    split; [exact Hp'|]. now repeat split.
  - intros id Hne. apply findById_save_other. simpl. congruence.
  - apply save_length.
  - reflexivity.
  - intros Hu2 Hnow2.
    rewrite (CustomerVerify_accepted env2 b u2 _ (Customer.set_verified true p)).
    + reflexivity.
    + simpl. rewrite Hu2. exact Hp'.
    + apply otp_accepted_iff. simpl. now split.
Qed.

End VerifyFacts.


Lemma CustomerVerify_writes_verified_only_witness :
  let w' :=
    snd (CustomerVerify (U := Sample.utility) Sample.env
           (mkRequest Sample.otp_body (Some Sample.session)) Sample.world) in
  status (fst (CustomerVerify (U := Sample.utility) Sample.later
                 (mkRequest Sample.otp_body (Some Sample.session)) w')) = 200.
Proof.
  apply (CustomerVerify_writes_verified_only (U := Sample.utility)
           Sample.env Sample.later Sample.otp_body Sample.session
           Sample.session Sample.world Sample.alice);
    try reflexivity; vm_compute; discriminate.
Defined.

(** ** Signup and login *)

Section SignUpLoginFacts.

Context {U : Utility}.

Lemma CustomerSignUp_invalid (env : Env) (req : Request) (w : World) :
  validate CreateCustomerInput (body req) <> [] ->
  CustomerSignUp env req w =
  (mkResponse 400 (Errors (validate CreateCustomerInput (body req))), w).
Proof.
  intros H. unfold_handler.
  destruct (validate CreateCustomerInput (body req)); [congruence|reflexivity].
Qed.

Lemma CustomerLogin_invalid (env : Env) (req : Request) (w : World) :
  validate CustomerLoginInput (body req) <> [] ->
  CustomerLogin env req w =
  (mkResponse 400 (Errors (validate CustomerLoginInput (body req))), w).
Proof.
  intros H. unfold_handler.
  destruct (validate CustomerLoginInput (body req)); [congruence|reflexivity].
Qed.

(** C2, as amended.  A signup whose lowercased email some record already
    has is answered with status 400 and leaves the world as it was; the
    body is the conflict message when the request passes the shape
    validation, and the list of field errors when it does not, since the
    validation comes first. *)
Theorem CustomerSignUp_email_in_use
  (env : Env) (b : Body.t) (usr : option Payload.t) (w : World) :
  email_in_use (Js.toLowerCase (Body.email b)) w ->
  let out := CustomerSignUp env (mkRequest b usr) w in
  status (fst out) = 400
  /\ snd out = w
  /\ (validate CreateCustomerInput b = [] ->
      json (fst out) = Message "This email address is already in use!")
  /\ (validate CreateCustomerInput b <> [] ->
      json (fst out) = Errors (validate CreateCustomerInput b)).
Proof.
  intros (c & Hin & He) out.
  destruct (findOne_used _ _ _ Hin He) as [c' Hc'].
  destruct (validate CreateCustomerInput b) as [|e errs] eqn:V.
  - assert (out = (mkResponse 400
                     (Message "This email address is already in use!"), w))
      as ->.
    { subst out. unfold_handler. rewrite V. simpl. rewrite Hc'. reflexivity. }
    simpl. repeat split; intros; try reflexivity; try discriminate; congruence.
  - assert (out = (mkResponse 400 (Errors (e :: errs)), w)) as ->.
    { subst out. rewrite CustomerSignUp_invalid; simpl; rewrite V;
        [reflexivity|discriminate]. }
    simpl. repeat split; intros; try reflexivity; try discriminate; congruence.
Qed.

(** C5.  A signup that passes the shape validation and whose lowercased
    email no record has appends one record to the collection: the email
    lowercased, the password hashed with the generated salt, the
    generated otp and expiry, [verified = false], empty names and
    address, zero coordinates.  The otp is sent to the phone and the
    answer is 201 with a token signed for the new record, its email and
    its [verified] flag. *)
Theorem CustomerSignUp_creates
  (env : Env) (b : Body.t) (usr : option Payload.t) (w : World) :
  validate CreateCustomerInput b = [] ->
  ~ email_in_use (Js.toLowerCase (Body.email b)) w ->
  let out := CustomerSignUp env (mkRequest b usr) w in
  let created :=
    {| Customer._id := Customer.fresh_id (customers w);
       Customer.email := Js.toLowerCase (Body.email b);
       Customer.password :=
         GeneratePassword (Body.password b) (GenerateSalt env);
       Customer.salt := GenerateSalt env;
       Customer.phone := Body.phone b;
       Customer.otp := Otp.otp (GenerateOtp env);
       Customer.otpExpiry := Otp.expiry (GenerateOtp env);
       Customer.verified := false;
       Customer.firstName := "";
       Customer.lastName := "";
       Customer.address := "";
       Customer.lat := 0;
       Customer.lng := 0 |} in
  customers (snd out) = (customers w ++ [created])%list
  /\ Customer.findById (Customer._id created) (customers (snd out))
     = Some created
  /\ (forall id p, Customer.findById id (customers w) = Some p ->
      Customer.findById id (customers (snd out)) = Some p)
  /\ outbox (snd out)
     = (outbox w ++ [(Otp.otp (GenerateOtp env), Body.phone b)])%list
  /\ fst out =
     mkResponse 201
       (Session
          (GenerateSignature
             (Payload.mk (Customer._id created)
                (Js.toLowerCase (Body.email b)) false))
          false (Js.toLowerCase (Body.email b))).
Proof.
  intros V Hfresh out created.
  assert (Customer.findOne (Js.toLowerCase (Body.email b)) (customers w) = None)
    as Hnone.
  { apply findOne_None. intros c Hin He. apply Hfresh. now exists c. }
  assert (out =
          (mkResponse 201
             (Session
                (GenerateSignature
                   (Payload.mk (Customer._id created)
                      (Js.toLowerCase (Body.email b)) false))
                false (Js.toLowerCase (Body.email b))),
           mkWorld (customers w ++ [created])%list
             (outbox w ++ [(Otp.otp (GenerateOtp env), Body.phone b)])%list))
    as ->.
  { subst out. unfold_handler. rewrite V. simpl. rewrite Hnone. reflexivity. }
  simpl. split; [reflexivity|]. split; [|split; [|split; reflexivity]].
  - rewrite findById_app, findById_fresh. simpl.
    now rewrite Nat.eqb_refl.
  - intros id p Hp. now rewrite findById_app, Hp.
Qed.

(** C3, as amended.  A login never writes.  A login that passes the shape
    validation looks the customer up by the email exactly as submitted:
    when no record has that email, or the password check against the
    record found fails, the answer is 400 with the one message
    "Invalid credentials!"; when the check succeeds the answer is 200 with
    a token signed for the id, email and [verified] flag of the stored
    record.  A login that fails the shape validation is answered 400 with
    the list of field errors. *)
Theorem CustomerLogin_answers
  (env : Env) (b : Body.t) (usr : option Payload.t) (w : World) :
  let out := CustomerLogin env (mkRequest b usr) w in
  let invalid := mkResponse 400 (Message "Invalid credentials!") in
  snd out = w
  /\ (validate CustomerLoginInput b <> [] ->
      fst out = mkResponse 400 (Errors (validate CustomerLoginInput b)))
  /\ (validate CustomerLoginInput b = [] ->
      (~ email_in_use (Body.email b) w -> fst out = invalid)
      /\ (forall c,
          Customer.findOne (Body.email b) (customers w) = Some c ->
          In c (customers w) /\ Customer.email c = Body.email b
          /\ (ValidatePassword (Body.password b) (Customer.password c) = false ->
              fst out = invalid)
          /\ (ValidatePassword (Body.password b) (Customer.password c) = true ->
              fst out =
              mkResponse 200
                (Session
                   (GenerateSignature
                      (Payload.mk (Customer._id c) (Customer.email c)
                         (Customer.verified c)))
                   (Customer.verified c) (Customer.email c))))).
Proof.
  intros out invalid. subst out invalid.
  destruct (validate CustomerLoginInput b) as [|e errs] eqn:V.
  - unfold_handler. rewrite V. simpl.
    destruct (Customer.findOne (Body.email b) (customers w)) as [c|] eqn:F.
    + destruct (findOne_In _ _ _ F) as [Hin He].
      destruct (ValidatePassword (Body.password b) (Customer.password c)) eqn:P;
        simpl.
      * split; [reflexivity|]. split; [congruence|]. intros _. split.
        -- intros Hno. destruct Hno. now exists c.
        -- intros c' [= <-]. rewrite P. repeat split; auto; discriminate.
      * split; [reflexivity|]. split; [congruence|]. intros _.
        split; [reflexivity|].
        intros c' [= <-]. rewrite P. repeat split; auto; discriminate.
    + simpl. split; [reflexivity|]. split; [congruence|]. intros _.
      split; [reflexivity|discriminate].
  - rewrite CustomerLogin_invalid by (simpl; rewrite V; discriminate).
    simpl. rewrite V. split; [reflexivity|]. split; [reflexivity|discriminate].
Qed.

End SignUpLoginFacts.

Lemma CustomerSignUp_email_in_use_witness :
  fst (CustomerSignUp (U := Sample.utility) Sample.env
         (mkRequest Sample.second_signup_body None) Sample.world)
  = mkResponse 400 (Message "This email address is already in use!")
  /\ snd (CustomerSignUp (U := Sample.utility) Sample.env
            (mkRequest Sample.second_signup_body None) Sample.world)
     = Sample.world.
Proof.
  assert (email_in_use
            (AsciiJs.toLowerCase (Body.email Sample.second_signup_body))
            Sample.world) as Hused.
  { exists Sample.alice. split; [now left|reflexivity]. }
  destruct (CustomerSignUp_email_in_use (U := Sample.utility) Sample.env
              Sample.second_signup_body None Sample.world Hused)
    as (Hs & Hw & Hv & _).
  split; [|exact Hw].
  specialize (Hv eq_refl).
  destruct (fst _) as [st js]. simpl in Hs, Hv. now subst.
Defined.

(** C2, as stated, fails: alice's email is in use, yet a signup with that
    email and no password is answered with the field errors, not with the
    conflict message. *)
Lemma CustomerSignUp_in_use_but_invalid :
  email_in_use (AsciiJs.toLowerCase (Body.email Sample.bad_signup_body))
    Sample.world
  /\ fst (CustomerSignUp (U := Sample.utility) Sample.env
            (mkRequest Sample.bad_signup_body None) Sample.world)
     = mkResponse 400 (Errors ["password should not be empty"])
  /\ json (fst (CustomerSignUp (U := Sample.utility) Sample.env
                  (mkRequest Sample.bad_signup_body None) Sample.world))
     <> Message "This email address is already in use!".
Proof.
  split; [|split].
  - exists Sample.alice. split; [now left|reflexivity].
  - reflexivity.
  - discriminate.
Qed.

Lemma CustomerSignUp_creates_witness :
  customers (snd (CustomerSignUp (U := Sample.utility) Sample.env
                    (mkRequest Sample.signup_body None) Sample.empty_world))
  = [ {| Customer._id := 1%nat;
         Customer.email := "a@x.com";
         Customer.password := "pepper$pw";
         Customer.salt := "pepper";
         Customer.phone := "555";
         Customer.otp := 654321;
         Customer.otpExpiry := 1800000;
         Customer.verified := false;
         Customer.firstName := "";
         Customer.lastName := "";
         Customer.address := "";
         Customer.lat := 0;
         Customer.lng := 0 |} ].
Proof.
  apply (CustomerSignUp_creates (U := Sample.utility) Sample.env
           Sample.signup_body None Sample.empty_world).
  - reflexivity.
  - intros (c & [] & _).
Defined.

Lemma CustomerLogin_answers_witness :
  fst (CustomerLogin (U := Sample.utility) Sample.env
         (mkRequest Sample.login_body None) Sample.world)
  = mkResponse 200 (Session "token:a@x.com:unverified" false "a@x.com")
  /\ fst (CustomerLogin (U := Sample.utility) Sample.env
            (mkRequest Sample.cased_login_body None) Sample.world)
     = mkResponse 400 (Message "Invalid credentials!").
Proof.
  split.
  - destruct (CustomerLogin_answers (U := Sample.utility) Sample.env
                Sample.login_body None Sample.world)
      as (_ & _ & Hvalid).
    destruct (Hvalid eq_refl) as (_ & Hfound).
    destruct (Hfound Sample.alice eq_refl) as (_ & _ & _ & Hok).
    exact (Hok eq_refl).
  - destruct (CustomerLogin_answers (U := Sample.utility) Sample.env
                Sample.cased_login_body None Sample.world)
      as (_ & _ & Hvalid).
    destruct (Hvalid eq_refl) as (Hunknown & _).
    apply Hunknown.
    intros (c & [<-|[]] & He). discriminate.
Defined.

(** C3, as stated, fails: no record has the email and yet the answer is
    not the generic message, because the body has no password and the
    validation answers first. *)
Lemma CustomerLogin_unknown_but_invalid :
  ~ email_in_use (Body.email Sample.bad_login_body) Sample.world
  /\ fst (CustomerLogin (U := Sample.utility) Sample.env
            (mkRequest Sample.bad_login_body None) Sample.world)
     = mkResponse 400 (Errors ["password should not be empty"])
  /\ json (fst (CustomerLogin (U := Sample.utility) Sample.env
                  (mkRequest Sample.bad_login_body None) Sample.world))
     <> Message "Invalid credentials!".
Proof.
  split; [|split].
  - intros (c & [<-|[]] & He). discriminate.
  - reflexivity.
  - discriminate.
Qed.

(** ** The handlers behind the auth middleware *)

Section ProfileFacts.

Context {U : Utility}.

Lemma authenticated_profile_save
  (usr : option Payload.t) (w : World) (p q : Customer.doc)
  (o : list (Z * string)) :
  authenticated_profile usr w = Some p ->
  Customer._id q = Customer._id p ->
  authenticated_profile usr (mkWorld (Customer.save q (customers w)) o)
  = Some q.
Proof.
  destruct usr as [u|]; simpl; [|discriminate].
  intros Hp Hq. eapply findById_save_same; [exact Hp|].
  rewrite Hq. eapply findById_id, Hp.
Qed.

(** C8.  For an authenticated caller whose profile exists, [RequestOtp]
    stores the generated otp and expiry on the profile (and changes no
    other field and no other record), hands the generated otp and the
    phone of the profile to the SMS collaborator, and answers 200 with the
    confirmation.  Without [req.user], or when the lookup finds nothing,
    it answers 400 with a generic message and the world is as it was. *)
Theorem RequestOtp_reissues
  (env : Env) (b : Body.t) (usr : option Payload.t) (w : World) :
  let out := RequestOtp env (mkRequest b usr) w in
  let otp := Otp.otp (GenerateOtp env) in
  let expiry := Otp.expiry (GenerateOtp env) in
  (forall p,
      authenticated_profile usr w = Some p ->
      fst out =
        mkResponse 200 (Message "OTP sent to your registered phone number.")
      /\ (exists p',
             authenticated_profile usr (snd out) = Some p'
             /\ Customer.otp p' = otp /\ Customer.otpExpiry p' = expiry
             /\ Customer.verified p' = Customer.verified p
             /\ same_account p p' /\ same_names p p')
      /\ (forall id, id <> Customer._id p ->
          Customer.findById id (customers (snd out))
          = Customer.findById id (customers w))
      /\ outbox (snd out) = (outbox w ++ [(otp, Customer.phone p)])%list)
  /\ (authenticated_profile usr w = None ->
      out = (mkResponse 400 (Message "Error generateing OTP!"), w)).
Proof.
  intros out otp expiry. subst out. split.
  - intros p Hp.
    assert (RequestOtp env (mkRequest b usr) w =
            (mkResponse 200
               (Message "OTP sent to your registered phone number."),
             mkWorld
               (Customer.save (Customer.set_otp otp expiry p) (customers w))
               (outbox w ++ [(otp, Customer.phone p)])%list)) as ->.
    { destruct usr as [u|]; simpl in Hp; [|discriminate].
      unfold_handler. rewrite Hp. reflexivity. }
    simpl. split; [reflexivity|]. split; [|split; [|reflexivity]].
    + exists (Customer.set_otp otp expiry p).
      split; [now apply authenticated_profile_save with (p := p)|].
      now repeat split.
    + intros id Hne. now apply findById_save_other.
  - intros Hnone. unfold_handler.
    destruct usr as [u|]; simpl in *; [|reflexivity].
    now rewrite Hnone.
Qed.

(** C10.  For an authenticated caller whose profile lookup succeeds,
    [GetCustomerProfile] answers 200 with the record as the store holds
    it, password hash, salt and otp included, and changes nothing.
    Without [req.user], or when the lookup finds nothing, it answers 400
    with a generic message. *)
Theorem GetCustomerProfile_returns_record
  (env : Env) (b : Body.t) (usr : option Payload.t) (w : World) :
  let out := GetCustomerProfile env (mkRequest b usr) w in
  (forall p,
      authenticated_profile usr w = Some p ->
      out = (mkResponse 200 (Profile p), w)
      /\ (exists q,
             json (fst out) = Profile q
             /\ Customer.password q = Customer.password p
             /\ Customer.salt q = Customer.salt p
             /\ Customer.otp q = Customer.otp p))
  /\ (authenticated_profile usr w = None ->
      out = (mkResponse 400 (Message "Error getting user profile!"), w)).
Proof.
  intros out. subst out. unfold_handler.
  destruct usr as [u|]; simpl.
  - destruct (Customer.findById (Payload._id u) (customers w)) as [p|]; simpl.
    + split; [|discriminate]. intros q [= <-].
      split; [reflexivity|]. now exists p.
    + split; [discriminate|reflexivity].
  - split; [discriminate|reflexivity].
Qed.

(** C6.  For an authenticated caller whose profile exists and a body that
    passes the shape validation, [UpdateCustomerProfile] assigns the
    submitted firstName, lastName and address, whatever they are and
    whatever was stored, saves the record and answers 200 with the
    updated record; the other fields and the other records are as they
    were. *)
Theorem UpdateCustomerProfile_overwrites
  (env : Env) (b : Body.t) (usr : option Payload.t) (w : World)
  (p : Customer.doc) :
  authenticated_profile usr w = Some p ->
  validate CustomerEditInput b = [] ->
  let out := UpdateCustomerProfile env (mkRequest b usr) w in
  exists updated,
    fst out = mkResponse 200 (Profile updated)
    /\ authenticated_profile usr (snd out) = Some updated
    /\ Customer.firstName updated = Body.firstName b
    /\ Customer.lastName updated = Body.lastName b
    /\ Customer.address updated = Body.address b
    /\ Customer.verified updated = Customer.verified p
    /\ same_account p updated /\ same_otp p updated
    /\ (forall id, id <> Customer._id p ->
        Customer.findById id (customers (snd out))
        = Customer.findById id (customers w))
    /\ outbox (snd out) = outbox w.
Proof.
  intros Hp V out.
  exists (Customer.set_profile (Body.firstName b) (Body.lastName b)
            (Body.address b) p).
  assert (out =
          (mkResponse 200
             (Profile (Customer.set_profile (Body.firstName b)
                         (Body.lastName b) (Body.address b) p)),
           mkWorld
             (Customer.save
                (Customer.set_profile (Body.firstName b) (Body.lastName b)
                   (Body.address b) p) (customers w))
             (outbox w))) as ->.
  { subst out. destruct usr as [u|]; simpl in Hp; [|discriminate].
    unfold_handler. rewrite Hp, V. reflexivity. }
  simpl. split; [reflexivity|].
  split; [now apply authenticated_profile_save with (p := p)|].
  repeat split.
  intros id Hne. now apply findById_save_other.
Qed.

(** C9.  [UpdateCustomerProfile] looks the profile up before it validates
    the body: for an authenticated caller whose lookup finds no record
    the answer is the generic 400 message whatever the body is, also for
    a body that fails the shape validation, so the answer is never a list
    of field errors; nothing is written. *)
Theorem UpdateCustomerProfile_lookup_first
  (env : Env) (b : Body.t) (u : Payload.t) (w : World) :
  Customer.findById (Payload._id u) (customers w) = None ->
  let out := UpdateCustomerProfile env (mkRequest b (Some u)) w in
  out = (mkResponse 400 (Message "Error updating profile!"), w)
  /\ (forall errs, json (fst out) <> Errors errs).
Proof.
  intros Hnone out. subst out. unfold_handler. rewrite Hnone. simpl.
  split; [reflexivity|discriminate].
Qed.

End ProfileFacts.

Lemma RequestOtp_reissues_witness :
  (fst (RequestOtp Sample.env
          (mkRequest Sample.no_body (Some Sample.session)) Sample.world)
   = mkResponse 200 (Message "OTP sent to your registered phone number.")
   /\ outbox (snd (RequestOtp Sample.env
                     (mkRequest Sample.no_body (Some Sample.session))
                     Sample.world))
      = [(654321, "555")])
  /\ RequestOtp Sample.env
       (mkRequest Sample.no_body (Some Sample.stale_session)) Sample.world
     = (mkResponse 400 (Message "Error generateing OTP!"), Sample.world).
Proof.
  split.
  - destruct (proj1 (RequestOtp_reissues Sample.env Sample.no_body
                       (Some Sample.session) Sample.world)
                Sample.alice eq_refl) as (Hres & _ & _ & Hsms).
    split; [exact Hres|exact Hsms].
  - apply (RequestOtp_reissues Sample.env Sample.no_body
             (Some Sample.stale_session) Sample.world).
    reflexivity.
Defined.

Lemma GetCustomerProfile_returns_record_witness :
  GetCustomerProfile Sample.env
    (mkRequest Sample.no_body (Some Sample.session)) Sample.world
  = (mkResponse 200 (Profile Sample.alice), Sample.world)
  /\ GetCustomerProfile Sample.env
       (mkRequest Sample.no_body None) Sample.world
     = (mkResponse 400 (Message "Error getting user profile!"), Sample.world).
Proof.
  split.
  - apply (proj1 (GetCustomerProfile_returns_record Sample.env Sample.no_body
                    (Some Sample.session) Sample.world) Sample.alice eq_refl).
  - apply (GetCustomerProfile_returns_record Sample.env Sample.no_body None
             Sample.world).
    reflexivity.
Defined.

Lemma UpdateCustomerProfile_overwrites_witness :
  Customer.lastName Sample.alice = "Smith"
  /\ exists updated,
      fst (UpdateCustomerProfile (U := Sample.utility) Sample.env
             (mkRequest Sample.edit_body (Some Sample.session)) Sample.world)
      = mkResponse 200 (Profile updated)
      /\ Customer.firstName updated = "Alice"
      /\ Customer.lastName updated = ""
      /\ Customer.address updated = "1 Main St".
Proof.
  split; [reflexivity|].
  destruct (UpdateCustomerProfile_overwrites (U := Sample.utility) Sample.env
              Sample.edit_body (Some Sample.session) Sample.world Sample.alice
              eq_refl eq_refl)
    as (updated & Hres & _ & Hf & Hl & Ha & _).
  exists updated. repeat split; assumption.
Defined.

Lemma UpdateCustomerProfile_lookup_first_witness :
  validate (Utility := Sample.utility) CustomerEditInput Sample.no_body
  = ["firstName should not be empty"]
  /\ UpdateCustomerProfile (U := Sample.utility) Sample.env
       (mkRequest Sample.no_body (Some Sample.stale_session)) Sample.world
     = (mkResponse 400 (Message "Error updating profile!"), Sample.world).
Proof.
  split; [reflexivity|].
  apply (UpdateCustomerProfile_lookup_first (U := Sample.utility) Sample.env
           Sample.no_body Sample.stale_session Sample.world).
  reflexivity.
Defined.

(** ** The verified flag along sequences of calls *)

Section VerifiedFlag.

Context {U : Utility}.

Lemma is_verified_save
  (id : ObjectId) (w : World) (p q : Customer.doc) (o : list (Z * string)) :
  Customer.findById (Customer._id q) (customers w) = Some p ->
  is_verified id (mkWorld (Customer.save q (customers w)) o) =
  if Nat.eqb (Customer._id q) id then Customer.verified q
  else is_verified id w.
Proof.
  intros Hp. unfold is_verified. simpl. rewrite findById_save, Hp.
  now destruct (Nat.eqb (Customer._id q) id).
Qed.

Lemma is_verified_create
  (id : ObjectId) (w : World) (c : Customer.doc) (o : list (Z * string)) :
  Customer.verified c = false ->
  is_verified id (mkWorld (customers w ++ [c])%list o) = is_verified id w.
Proof.
  intros Hc. unfold is_verified. simpl. rewrite findById_app.
  destruct (Customer.findById id (customers w)); [reflexivity|].
  now destruct (Nat.eqb (Customer._id c) id).
Qed.

(** A save of a record with the flag it was read with leaves every flag
    as it was. *)
Lemma is_verified_resave
  (id : ObjectId) (w : World) (p q : Customer.doc) (o : list (Z * string)) :
  Customer.findById (Customer._id q) (customers w) = Some p ->
  Customer.verified q = Customer.verified p ->
  is_verified id (mkWorld (Customer.save q (customers w)) o)
  = is_verified id w.
Proof.
  intros Hp Hv. rewrite (is_verified_save id w p q o Hp).
  destruct (Nat.eqb_spec (Customer._id q) id) as [E|E]; [|reflexivity].
  unfold is_verified. now rewrite <- E, Hp.
Qed.

(** What a call does to the flags: nothing, unless it is an accepted
    [CustomerVerify], which sets the flag of the caller's record. *)
Lemma handle_flags (c : Call) (w : World) :
  (forall id, is_verified id (snd (handle c w)) = is_verified id w)
  \/ (exists u p,
         route c = Route.VerifyOtp
         /\ user (request c) = Some u
         /\ Customer.findById (Payload._id u) (customers w) = Some p
         /\ otp_accepted (env c) (Body.otp (body (request c))) p = true
         /\ status (fst (handle c w)) = 200
         /\ forall id,
             is_verified id (snd (handle c w)) =
             if Nat.eqb (Payload._id u) id then true else is_verified id w).
Proof.
  destruct c as [r e [b usr]]. unfold handle. simpl.
  destruct r.
  - (* SignUp *)
    left. intros id. unfold_handler.
    destruct (validate CreateCustomerInput b); simpl; [|reflexivity].
    destruct (Customer.findOne (Js.toLowerCase (Body.email b)) (customers w));
      simpl; [reflexivity|].
    now apply is_verified_create.
  - (* Login *)
    left. intros id. unfold_handler.
    destruct (validate CustomerLoginInput b); simpl; [|reflexivity].
    destruct (Customer.findOne (Body.email b) (customers w)) as [d|];
      simpl; [|reflexivity].
    now destruct (ValidatePassword (Body.password b) (Customer.password d)).
  - (* VerifyOtp *)
    destruct usr as [u|]; [|left; reflexivity].
    destruct (Customer.findById (Payload._id u) (customers w)) as [p|] eqn:Hp.
    + destruct (otp_accepted e (Body.otp b) p) eqn:Hacc.
      * right. exists u, p.
        rewrite (CustomerVerify_accepted e b u w p Hp Hacc). simpl.
        repeat split; try assumption.
        intros id. pose proof (findById_id _ _ _ Hp) as Hid.
        rewrite (is_verified_save id w p); simpl; rewrite Hid;
          [reflexivity|exact Hp].
      * left. intros id.
        rewrite (CustomerVerify_rejected e b (Some u) w); [reflexivity|].
        simpl. now rewrite Hp.
    + left. intros id.
      rewrite (CustomerVerify_rejected e b (Some u) w); [reflexivity|].
      simpl. now rewrite Hp.
  - (* RequestOtp *)
    left. intros id. unfold_handler.
    destruct usr as [u|]; [|reflexivity].
    destruct (Customer.findById (Payload._id u) (customers w)) as [p|] eqn:Hp;
      simpl; [|reflexivity].
    pose proof (findById_id _ _ _ Hp) as Hid.
    apply is_verified_resave with (p := p); simpl; [|reflexivity].
    now rewrite Hid.
  - (* GetProfile *)
    left. intros id. unfold_handler.
    destruct usr as [u|]; [|reflexivity].
    now destruct (Customer.findById (Payload._id u) (customers w)).
  - (* UpdateProfile *)
    left. intros id. unfold_handler.
    destruct usr as [u|]; [|reflexivity].
    destruct (Customer.findById (Payload._id u) (customers w)) as [p|] eqn:Hp;
      simpl; [|reflexivity].
    destruct (validate CustomerEditInput b); simpl; [|reflexivity].
    pose proof (findById_id _ _ _ Hp) as Hid.
    apply is_verified_resave with (p := p); simpl; [|reflexivity].
    now rewrite Hid.
Qed.

Lemma handle_keeps_verified (id : ObjectId) (c : Call) (w : World) :
  is_verified id w = true -> is_verified id (snd (handle c w)) = true.
Proof.
  intros Hv. destruct (handle_flags c w) as [H|(u & p & _ & _ & _ & _ & _ & H)];
    rewrite H; [exact Hv|].
  now destruct (Nat.eqb (Payload._id u) id).
Qed.

Lemma rises_once_verified (id : ObjectId) (calls : list Call) :
  forall w, is_verified id w = true -> rises id calls w = O.
Proof.
  induction calls as [|c rest IH]; intros w Hv; simpl; [reflexivity|].
  rewrite Hv. simpl. apply IH. now apply handle_keeps_verified.
Qed.

Lemma run_keeps_verified (id : ObjectId) (calls : list Call) :
  forall w, is_verified id w = true -> is_verified id (run calls w) = true.
Proof.
  induction calls as [|c rest IH]; intros w Hv; simpl; [exact Hv|].
  apply IH. now apply handle_keeps_verified.
Qed.

(** An accepted [CustomerVerify] leaves the flag of the caller's record
    set. *)
Lemma accepted_verify_sets (c : Call) (w : World) (u : Payload.t)
  (p : Customer.doc) :
  route c = Route.VerifyOtp ->
  user (request c) = Some u ->
  Customer.findById (Payload._id u) (customers w) = Some p ->
  Js.parseInt (Body.otp (body (request c))) = Some (Customer.otp p) ->
  now (env c) <= Customer.otpExpiry p ->
  is_verified (Payload._id u) (snd (handle c w)) = true.
Proof.
  destruct c as [r e [b usr]]. simpl. intros -> -> Hp Hotp Hnow.
  assert (otp_accepted e (Body.otp b) p = true) as Hacc
    by (apply otp_accepted_iff; now split).
  unfold handle. simpl.
  rewrite (CustomerVerify_accepted e b u w p Hp Hacc). simpl.
  rewrite (is_verified_save _ w p); simpl.
  - now rewrite (findById_id _ _ _ Hp), Nat.eqb_refl.
  - now rewrite (findById_id _ _ _ Hp).
Qed.

(** C4.  For every record: no call of any of the six handlers takes the
    stored [verified] flag from [true] to [false]; a call that takes it
    from [false] to [true] is a [CustomerVerify] of that customer that
    was answered 200, with the submitted otp equal to the stored one and
    the expiry not elapsed; such a call does set the flag, so a sequence
    of calls that starts with it on an unverified record sees the flag go
    from [false] to [true] exactly once and ends with the flag set; and
    along every sequence of calls the flag goes from [false] to [true]
    exactly once when it is [false] before and [true] after, never
    otherwise, never goes back, and once [true] is [true] after all the
    calls that follow. *)
Theorem verified_is_one_way (id : ObjectId) :
  (forall c w,
      is_verified id w = true -> is_verified id (snd (handle c w)) = true)
  /\ (forall c w,
      is_verified id w = false ->
      is_verified id (snd (handle c w)) = true ->
      route c = Route.VerifyOtp
      /\ status (fst (handle c w)) = 200
      /\ exists u p,
          user (request c) = Some u /\ Payload._id u = id
          /\ Customer.findById id (customers w) = Some p
          /\ Js.parseInt (Body.otp (body (request c))) = Some (Customer.otp p)
          /\ now (env c) <= Customer.otpExpiry p)
  /\ (forall c w u p,
      route c = Route.VerifyOtp ->
      user (request c) = Some u -> Payload._id u = id ->
      Customer.findById id (customers w) = Some p ->
      Js.parseInt (Body.otp (body (request c))) = Some (Customer.otp p) ->
      now (env c) <= Customer.otpExpiry p ->
      is_verified id (snd (handle c w)) = true
      /\ (Customer.verified p = false ->
          forall rest,
            rises id (c :: rest) w = 1%nat
            /\ is_verified id (run (c :: rest) w) = true))
  /\ (forall calls w,
      rises id calls w =
        (if negb (is_verified id w) && is_verified id (run calls w)
         then 1%nat else 0%nat)
      /\ (rises id calls w <= 1)%nat
      /\ falls id calls w = O
      /\ (is_verified id w = true -> is_verified id (run calls w) = true)).
Proof.
  split; [|split; [|split]].
  - intros c w. apply handle_keeps_verified.
  - intros c w Hf Ht.
    destruct (handle_flags c w)
      as [H|(u & p & Hr & Hu & Hp & Hacc & Hs & H)]; rewrite H in Ht.
    + congruence.
    + destruct (Nat.eqb_spec (Payload._id u) id) as [E|E]; [|congruence].
      split; [exact Hr|]. split; [exact Hs|].
      exists u, p. apply otp_accepted_iff in Hacc. destruct Hacc.
      rewrite <- E. now repeat split.
  - intros c w u p Hr Hu Hid Hp Hotp Hnow. subst id.
    pose proof (accepted_verify_sets c w u p Hr Hu Hp Hotp Hnow) as Hset.
    split; [exact Hset|].
    intros Hv rest. simpl.
    assert (is_verified (Payload._id u) w = false) as Hw
      by (unfold is_verified; now rewrite Hp).
    rewrite Hw, Hset. simpl.
    rewrite (rises_once_verified _ rest _ Hset).
    split; [reflexivity|]. now apply run_keeps_verified.
  - intros calls. induction calls as [|c rest IH]; intros w; simpl.
    + rewrite andb_negb_l. repeat split; auto.
    + destruct (IH (snd (handle c w))) as (He & Hr & Hf & Hk).
      destruct (is_verified id w) eqn:Hv; simpl.
      * pose proof (handle_keeps_verified id c w Hv) as Hv'.
        rewrite Hv'. simpl.
        split; [now apply rises_once_verified|].
        split; [exact Hr|]. split; [exact Hf|].
        intros _. apply Hk. exact Hv'.
      * rewrite Hf.
        destruct (is_verified id (snd (handle c w))) eqn:Hv'; simpl.
        -- rewrite (rises_once_verified id rest _ Hv').
           rewrite (run_keeps_verified id rest _ Hv').
           repeat split; auto; discriminate.
        -- simpl in He.
           split; [exact He|]. split; [exact Hr|].
           split; [reflexivity|discriminate].
Qed.

End VerifiedFlag.

(** Alice submits the code she holds: the flag rises at that call, once,
    and is set after the otp request and the profile update that follow. *)
Lemma verified_is_one_way_witness :
  let calls :=
    [ mkCall Route.VerifyOtp Sample.env
        (mkRequest Sample.otp_body (Some Sample.session));
      mkCall Route.RequestOtp Sample.later
        (mkRequest Sample.no_body (Some Sample.session));
      mkCall Route.UpdateProfile Sample.later
        (mkRequest Sample.edit_body (Some Sample.session)) ] in
  is_verified 1%nat Sample.world = false
  /\ rises (U := Sample.utility) 1%nat calls Sample.world = 1%nat
  /\ is_verified 1%nat (run (U := Sample.utility) calls Sample.world) = true.
Proof.
  split; [reflexivity|].
  destruct (verified_is_one_way (U := Sample.utility) 1%nat)
    as (_ & _ & Hsets & _).
  apply (Hsets
           (mkCall Route.VerifyOtp Sample.env
              (mkRequest Sample.otp_body (Some Sample.session)))
           Sample.world Sample.session Sample.alice);
    try reflexivity.
  vm_compute. discriminate.
Defined.

(** The flag of alice along six calls: a verification with a wrong code,
    one with the right code, a new otp, a verification with the old code, a
    profile update and a second signup.  It rises once, at the second call,
    and is set at the end. *)
Example verified_rises_once :
  let wrong := Body.mk "" "" "" (Js.Str "000000") "" "" "" in
  let calls :=
    [ mkCall Route.VerifyOtp Sample.env (mkRequest wrong (Some Sample.session));
      mkCall Route.VerifyOtp Sample.env
        (mkRequest Sample.otp_body (Some Sample.session));
      mkCall Route.RequestOtp Sample.later
        (mkRequest Sample.no_body (Some Sample.session));
      mkCall Route.VerifyOtp Sample.later
        (mkRequest Sample.otp_body (Some Sample.session));
      mkCall Route.UpdateProfile Sample.later
        (mkRequest Sample.edit_body (Some Sample.session));
      mkCall Route.SignUp Sample.later
        (mkRequest Sample.second_signup_body None) ] in
  rises (U := Sample.utility) 1%nat calls Sample.world = 1%nat
  /\ falls (U := Sample.utility) 1%nat calls Sample.world = 0%nat
  /\ is_verified 1%nat (run (U := Sample.utility) calls Sample.world) = true.
Proof. repeat split. Qed.

(** * Further properties of the handlers *)

(** ** More on the sample runtime and on the collection *)

Section MoreStoreFacts.

Implicit Types (db : Customer.collection) (p q c : Customer.doc) (id : ObjectId).

Lemma lower_ascii_idempotent (a : ascii) :
  AsciiJs.lower_ascii (AsciiJs.lower_ascii a) = AsciiJs.lower_ascii a.
Proof. destruct a as [[] [] [] [] [] [] [] []]; reflexivity. Qed.

(** The sample runtime lowercases idempotently. *)
Lemma toLowerCase_idempotent (s : string) :
  AsciiJs.toLowerCase (AsciiJs.toLowerCase s) = AsciiJs.toLowerCase s.
Proof.
  induction s as [|a t IH]; simpl; [reflexivity|].
  now rewrite lower_ascii_idempotent, IH.
Qed.

Lemma findOne_app db c e :
  Customer.findOne e (db ++ [c])%list =
  match Customer.findOne e db with
  | Some x => Some x
  | None => if String.eqb (Customer.email c) e then Some c else None
  end.
Proof.
  induction db as [|d rest IH]; simpl; [reflexivity|].
  now destruct (String.eqb (Customer.email d) e).
Qed.

Lemma save_emails db p q :
  Customer.findById (Customer._id q) db = Some p ->
  Customer.email q = Customer.email p ->
  map Customer.email (Customer.save q db) = map Customer.email db.
Proof.
  intros Hp He. induction db as [|c rest IH]; simpl in *; [reflexivity|].
  destruct (Nat.eqb (Customer._id c) (Customer._id q)); simpl.
  - injection Hp as ->. now rewrite He.
  - now rewrite IH.
Qed.

Lemma save_save db q1 q2 :
  Customer._id q2 = Customer._id q1 ->
  Customer.save q2 (Customer.save q1 db) = Customer.save q2 db.
Proof.
  intros E. induction db as [|c rest IH]; simpl; [reflexivity|].
  rewrite E.
  destruct (Nat.eqb (Customer._id c) (Customer._id q1)) eqn:F; simpl.
  - now rewrite E, Nat.eqb_refl.
  - now rewrite E, F, IH.
Qed.

Lemma save_In db id p q :
  Customer.findById id db = Some p -> Customer._id q = id ->
  In q (Customer.save q db).
Proof.
  intros Hp Hq. apply findById_In with (id := id).
  now apply findById_save_same with (p := p).
Qed.

Lemma NoDup_snoc {A : Type} (l : list A) (x : A) :
  ~ In x l -> NoDup l -> NoDup (l ++ [x])%list.
Proof.
  induction l as [|a l IH]; simpl; intros Hx Hl.
  - constructor; [intros []|constructor].
  - inversion Hl as [|? ? Ha Hl']; subst. constructor.
    + rewrite in_app_iff. simpl. intros [H|[H|[]]]; [now apply Ha|].
      apply Hx. now left.
    + apply IH; [|exact Hl']. intros H. apply Hx. now right.
Qed.

(** With distinct emails, the lookup by email finds the record that was
    saved under the id. *)
Lemma findOne_save db p q :
  NoDup (map Customer.email db) ->
  Customer.findById (Customer._id q) db = Some p ->
  Customer.email q = Customer.email p ->
  Customer.findOne (Customer.email p) (Customer.save q db) = Some q.
Proof.
  intros Hnd Hp He. induction db as [|c rest IH]; simpl in *; [discriminate|].
  inversion Hnd as [|? ? Hc Hrest]; subst.
  destruct (Nat.eqb (Customer._id c) (Customer._id q)); simpl.
  - injection Hp as ->. now rewrite He, String.eqb_refl.
  - destruct (String.eqb_spec (Customer.email c) (Customer.email p)) as [E|E].
    + destruct Hc. rewrite E. apply in_map. now apply findById_In in Hp.
    + now apply IH.
Qed.

End MoreStoreFacts.

(** ** What each handler returns, case by case *)

Section HandlerEquations.

Context {U : Utility}.

Lemma CustomerSignUp_created
  (env : Env) (b : Body.t) (usr : option Payload.t) (w : World) :
  validate CreateCustomerInput b = [] ->
  Customer.findOne (Js.toLowerCase (Body.email b)) (customers w) = None ->
  CustomerSignUp env (mkRequest b usr) w =
  (mkResponse 201
     (Session
        (GenerateSignature
           (Payload.mk (Customer.fresh_id (customers w))
              (Js.toLowerCase (Body.email b)) false))
        false (Js.toLowerCase (Body.email b))),
   mkWorld
     (customers w ++ [signup_record env b (Customer.fresh_id (customers w))])%list
     (outbox w ++ [(Otp.otp (GenerateOtp env), Body.phone b)])%list).
Proof.
  intros V F. unfold_handler. rewrite V. simpl. rewrite F. reflexivity.
Qed.

Lemma CustomerSignUp_conflict
  (env : Env) (b : Body.t) (usr : option Payload.t) (w : World)
  (c : Customer.doc) :
  validate CreateCustomerInput b = [] ->
  Customer.findOne (Js.toLowerCase (Body.email b)) (customers w) = Some c ->
  CustomerSignUp env (mkRequest b usr) w =
  (mkResponse 400 (Message "This email address is already in use!"), w).
Proof.
  intros V F. unfold_handler. rewrite V. simpl. rewrite F. reflexivity.
Qed.

Lemma CustomerLogin_checked
  (env : Env) (b : Body.t) (usr : option Payload.t) (w : World) :
  validate CustomerLoginInput b = [] ->
  CustomerLogin env (mkRequest b usr) w =
  (match Customer.findOne (Body.email b) (customers w) with
   | Some c =>
       if ValidatePassword (Body.password b) (Customer.password c)
       then mkResponse 200
              (Session (GenerateSignature (token_of c))
                 (Customer.verified c) (Customer.email c))
       else mkResponse 400 (Message "Invalid credentials!")
   | None => mkResponse 400 (Message "Invalid credentials!")
   end, w).
Proof.
  intros V. unfold_handler. rewrite V. simpl.
  destruct (Customer.findOne (Body.email b) (customers w)) as [c|];
    [|reflexivity].
  now destruct (ValidatePassword (Body.password b) (Customer.password c)).
Qed.

Lemma RequestOtp_saved
  (env : Env) (b : Body.t) (usr : option Payload.t) (w : World)
  (p : Customer.doc) :
  authenticated_profile usr w = Some p ->
  RequestOtp env (mkRequest b usr) w =
  (mkResponse 200 (Message "OTP sent to your registered phone number."),
   mkWorld
     (Customer.save
        (Customer.set_otp (Otp.otp (GenerateOtp env))
           (Otp.expiry (GenerateOtp env)) p) (customers w))
     (outbox w ++ [(Otp.otp (GenerateOtp env), Customer.phone p)])%list).
Proof.
  destruct usr as [u|]; simpl; [|discriminate].
  intros Hp. unfold_handler. rewrite Hp. reflexivity.
Qed.

Lemma RequestOtp_refused
  (env : Env) (b : Body.t) (usr : option Payload.t) (w : World) :
  authenticated_profile usr w = None ->
  RequestOtp env (mkRequest b usr) w =
  (mkResponse 400 (Message "Error generateing OTP!"), w).
Proof.
  destruct usr as [u|]; simpl; [|reflexivity].
  intros Hp. unfold_handler. rewrite Hp. reflexivity.
Qed.

Lemma GetCustomerProfile_found
  (env : Env) (b : Body.t) (usr : option Payload.t) (w : World)
  (p : Customer.doc) :
  authenticated_profile usr w = Some p ->
  GetCustomerProfile env (mkRequest b usr) w
  = (mkResponse 200 (Profile p), w).
Proof.
  destruct usr as [u|]; simpl; [|discriminate].
  intros Hp. unfold_handler. rewrite Hp. reflexivity.
Qed.

Lemma UpdateCustomerProfile_saved
  (env : Env) (b : Body.t) (usr : option Payload.t) (w : World)
  (p : Customer.doc) :
  authenticated_profile usr w = Some p ->
  validate CustomerEditInput b = [] ->
  UpdateCustomerProfile env (mkRequest b usr) w =
  (mkResponse 200
     (Profile
        (Customer.set_profile (Body.firstName b) (Body.lastName b)
           (Body.address b) p)),
   mkWorld
     (Customer.save
        (Customer.set_profile (Body.firstName b) (Body.lastName b)
           (Body.address b) p) (customers w))
     (outbox w)).
Proof.
  destruct usr as [u|]; simpl; [|discriminate].
  intros Hp V. unfold_handler. rewrite Hp, V. reflexivity.
Qed.

Lemma UpdateCustomerProfile_refused
  (env : Env) (b : Body.t) (usr : option Payload.t) (w : World) :
  match authenticated_profile usr w with
  | Some _ => validate CustomerEditInput b <> []
  | None => True
  end ->
  status (fst (UpdateCustomerProfile env (mkRequest b usr) w)) = 400
  /\ snd (UpdateCustomerProfile env (mkRequest b usr) w) = w.
Proof.
  destruct usr as [u|]; simpl; [|now split].
  unfold_handler.
  destruct (Customer.findById (Payload._id u) (customers w)); [|now split].
  destruct (validate CustomerEditInput b); [congruence|now split].
Qed.

End HandlerEquations.

(** ** One call *)

Section OneCall.

Context {U : Utility}.

(** X1.  Every answer has status 200, 201 or 400; 201 is the answer of a
    signup only; and a call answered 400, whichever handler it is and
    whatever the reason, leaves the collection and the SMS outbox as they
    were. *)
Theorem bad_request_never_writes (c : Call) (w : World) :
  let out := handle c w in
  (status (fst out) = 200 \/ status (fst out) = 201 \/ status (fst out) = 400)
  /\ (status (fst out) = 201 -> route c = Route.SignUp)
  /\ (status (fst out) = 400 -> snd out = w).
Proof.
  destruct c as [r e [b usr]]. unfold handle. simpl.
  destruct r; unfold_handler;
    repeat match goal with
      | |- context [match ?x with _ => _ end] => destruct x
      end;
    simpl; repeat split; auto; discriminate.
Qed.

(** X2.  An otp goes to the SMS collaborator exactly in a signup answered
    201 and in an otp request answered 200.  The message then carries the
    generated otp, which, with its expiry, is the one stored on a record of
    the collection, and it goes to the phone of that record; every other
    call leaves the outbox as it was. *)
Theorem sms_carries_stored_otp (c : Call) (w : World) :
  let out := handle c w in
  (~ sends_otp c (fst out) -> outbox (snd out) = outbox w)
  /\ (sends_otp c (fst out) ->
      exists p,
        In p (customers (snd out))
        /\ Customer.otp p = Otp.otp (GenerateOtp (env c))
        /\ Customer.otpExpiry p = Otp.expiry (GenerateOtp (env c))
        /\ outbox (snd out)
           = (outbox w ++ [(Customer.otp p, Customer.phone p)])%list).
Proof.
  destruct c as [r e [b usr]]. unfold sends_otp, handle. simpl.
  destruct r.
  - (* SignUp *)
    destruct (validate CreateCustomerInput b) as [|err errs] eqn:V.
    + destruct (Customer.findOne (Js.toLowerCase (Body.email b)) (customers w))
        as [d|] eqn:F.
      * rewrite (CustomerSignUp_conflict e b usr w d V F). simpl.
        split; [reflexivity|]. intros [[_ H]|[H _]]; discriminate.
      * rewrite (CustomerSignUp_created e b usr w V F). simpl. split.
        -- intros H. destruct H. now left.
        -- intros _.
           exists (signup_record e b (Customer.fresh_id (customers w))).
           split; [|now repeat split].
           apply in_or_app. right. now left.
    + rewrite CustomerSignUp_invalid by (simpl; rewrite V; discriminate).
      simpl. split; [reflexivity|]. intros [[_ H]|[H _]]; discriminate.
  - (* Login *)
    split; [|intros [[H _]|[H _]]; discriminate]. intros _. unfold_handler.
    destruct (validate CustomerLoginInput b); simpl; [|reflexivity].
    destruct (Customer.findOne (Body.email b) (customers w)) as [d|];
      [|reflexivity].
    now destruct (ValidatePassword (Body.password b) (Customer.password d)).
  - (* VerifyOtp *)
    split; [|intros [[H _]|[H _]]; discriminate]. intros _. unfold_handler.
    destruct usr as [u|]; [|reflexivity].
    destruct (Customer.findById (Payload._id u) (customers w)) as [p|];
      [|reflexivity].
    now destruct (otp_accepted e (Body.otp b) p).
  - (* RequestOtp *)
    destruct (authenticated_profile usr w) as [p|] eqn:Hp.
    + rewrite (RequestOtp_saved e b usr w p Hp). simpl. split.
      * intros H. destruct H. now right.
      * intros _.
        exists (Customer.set_otp (Otp.otp (GenerateOtp e))
                  (Otp.expiry (GenerateOtp e)) p).
        split; [|now repeat split].
        destruct usr as [u|]; simpl in Hp; [|discriminate].
        apply save_In with (id := Payload._id u) (p := p); [exact Hp|].
        simpl. now apply findById_id with (db := customers w).
    + rewrite (RequestOtp_refused e b usr w Hp). simpl.
      split; [reflexivity|]. intros [[H _]|[_ H]]; discriminate.
  - (* GetProfile *)
    split; [|intros [[H _]|[H _]]; discriminate]. intros _. unfold_handler.
    destruct usr as [u|]; [|reflexivity].
    now destruct (Customer.findById (Payload._id u) (customers w)).
  - (* UpdateProfile *)
    split; [|intros [[H _]|[H _]]; discriminate]. intros _. unfold_handler.
    destruct usr as [u|]; [|reflexivity].
    destruct (Customer.findById (Payload._id u) (customers w)); [|reflexivity].
    now destruct (validate CustomerEditInput b).
Qed.


(** X4.  A verification whose body has no [otp] field, or has [null], a
    boolean or the empty string there, is answered 400 for every caller,
    every stored otp and at every time, and writes nothing: [parseInt]
    yields NaN, which equals no stored otp. *)
Theorem CustomerVerify_without_code
  (env : Env) (b : Body.t) (usr : option Payload.t) (w : World) :
  Body.otp b = Js.Undefined \/ Body.otp b = Js.Null
  \/ (exists f, Body.otp b = Js.Bool f) \/ Body.otp b = Js.Str "" ->
  CustomerVerify env (mkRequest b usr) w
  = (mkResponse 400 (Message "OPT verification failed!"), w).
Proof.
  intros Hb. apply CustomerVerify_rejected.
  destruct (authenticated_profile usr w) as [p|]; [|exact I].
  unfold otp_accepted.
  destruct Hb as [-> |[-> |[[f ->]| ->]]];
    now rewrite ?Js.parseInt_undefined, ?Js.parseInt_null,
      ?Js.parseInt_boolean, ?Js.parseInt_empty.
Qed.

End OneCall.

Lemma CustomerVerify_without_code_witness :
  CustomerVerify (U := Sample.utility) Sample.env
    (mkRequest Sample.no_body (Some Sample.session)) Sample.world
  = (mkResponse 400 (Message "OPT verification failed!"), Sample.world).
Proof.
  apply (CustomerVerify_without_code (U := Sample.utility)).
  left. reflexivity.
Defined.


(** ** Sequences of calls *)

Section Sequences.

Context {U : Utility}.

Lemma same_account_refl (p : Customer.doc) : same_account p p.
Proof. now repeat split. Qed.

Lemma same_account_trans (p q r : Customer.doc) :
  same_account p q -> same_account q r -> same_account p r.
Proof.
  unfold same_account. intros (A1 & A2 & A3 & A4 & A5 & A6 & A7)
    (B1 & B2 & B3 & B4 & B5 & B6 & B7).
  repeat split; congruence.
Qed.

Lemma In_save (db : Customer.collection) (q c : Customer.doc) :
  In c (Customer.save q db) -> c = q \/ In c db.
Proof.
  induction db as [|d rest IH]; simpl; [intros []|].
  destruct (Nat.eqb (Customer._id d) (Customer._id q)); simpl.
  - intros [<-|H]; [now left|right; now right].
  - intros [<-|H]; [right; now left|].
    destruct (IH H); [now left|right; now right].
Qed.

(** What a call does to the collection: nothing, or one [create] of a
    record whose lowercased email no record had, or one [save] of a record
    over the stored one with the same id and the same account fields. *)
Lemma handle_store (c : Call) (w : World) :
  customers (snd (handle c w)) = customers w
  \/ (exists d,
         customers (snd (handle c w)) = (customers w ++ [d])%list
         /\ Customer.email d = Js.toLowerCase (Body.email (body (request c)))
         /\ Customer.findOne (Customer.email d) (customers w) = None)
  \/ (exists p q,
         customers (snd (handle c w)) = Customer.save q (customers w)
         /\ Customer.findById (Customer._id q) (customers w) = Some p
         /\ same_account p q).
Proof.
  destruct c as [r e [b usr]]. unfold handle. simpl.
  destruct r.
  - (* SignUp *)
    destruct (validate CreateCustomerInput b) as [|err errs] eqn:V.
    + destruct (Customer.findOne (Js.toLowerCase (Body.email b)) (customers w))
        as [d|] eqn:F.
      * rewrite (CustomerSignUp_conflict e b usr w d V F). now left.
      * rewrite (CustomerSignUp_created e b usr w V F). simpl.
        right. left.
        exists (signup_record e b (Customer.fresh_id (customers w))).
        now repeat split.
    + rewrite CustomerSignUp_invalid by (simpl; rewrite V; discriminate).
      now left.
  - (* Login *)
    left. unfold_handler.
    destruct (validate CustomerLoginInput b); simpl; [|reflexivity].
    destruct (Customer.findOne (Body.email b) (customers w)) as [d|];
      [|reflexivity].
    now destruct (ValidatePassword (Body.password b) (Customer.password d)).
  - (* VerifyOtp *)
    destruct (authenticated_profile usr w) as [p|] eqn:Hp.
    + destruct (otp_accepted e (Body.otp b) p) eqn:Hacc.
      * destruct usr as [u|]; simpl in Hp; [|discriminate].
        rewrite (CustomerVerify_accepted e b u w p Hp Hacc). simpl.
        right. right. exists p, (Customer.set_verified true p).
        split; [reflexivity|]. split; [|now repeat split].
        simpl. now rewrite (findById_id _ _ _ Hp).
      * rewrite (CustomerVerify_rejected e b usr w) by now rewrite Hp.
        now left.
    + rewrite (CustomerVerify_rejected e b usr w) by now rewrite Hp.
      now left.
  - (* RequestOtp *)
    destruct (authenticated_profile usr w) as [p|] eqn:Hp.
    + rewrite (RequestOtp_saved e b usr w p Hp). simpl.
      right. right. exists p. eexists. split; [reflexivity|].
      split; [|now repeat split].
      destruct usr as [u|]; simpl in Hp; [|discriminate].
      simpl. now rewrite (findById_id _ _ _ Hp).
    + rewrite (RequestOtp_refused e b usr w Hp). now left.
  - (* GetProfile *)
    left. unfold_handler.
    destruct usr as [u|]; [|reflexivity].
    now destruct (Customer.findById (Payload._id u) (customers w)).
  - (* UpdateProfile *)
    destruct (authenticated_profile usr w) as [p|] eqn:Hp.
    + destruct (validate CustomerEditInput b) as [|err errs] eqn:V.
      * rewrite (UpdateCustomerProfile_saved e b usr w p Hp V). simpl.
        right. right. exists p. eexists. split; [reflexivity|].
        split; [|now repeat split].
        destruct usr as [u|]; simpl in Hp; [|discriminate].
        simpl. now rewrite (findById_id _ _ _ Hp).
      * left.
        destruct (UpdateCustomerProfile_refused e b usr w) as [_ ->];
          [|reflexivity].
        rewrite Hp, V. discriminate.
    + left.
      destruct (UpdateCustomerProfile_refused e b usr w) as [_ ->];
        [|reflexivity].
      now rewrite Hp.
Qed.

Lemma handle_keeps_account
  (c : Call) (w : World) (id : ObjectId) (p : Customer.doc) :
  Customer.findById id (customers w) = Some p ->
  exists p',
    Customer.findById id (customers (snd (handle c w))) = Some p'
    /\ same_account p p'.
Proof.
  intros Hp.
  destruct (handle_store c w) as [->|[(d & -> & _)|(p0 & q & -> & Hq & Hs)]].
  - exists p. split; [exact Hp|apply same_account_refl].
  - exists p. rewrite findById_app, Hp.
    split; [reflexivity|apply same_account_refl].
  - rewrite findById_save, Hq.
    destruct (Nat.eqb_spec (Customer._id q) id) as [E|E].
    + exists q. split; [reflexivity|]. rewrite E in Hq. congruence.
    + exists p. split; [exact Hp|apply same_account_refl].
Qed.

Lemma handle_keeps_unique_emails (c : Call) (w : World) :
  unique_emails w -> unique_emails (snd (handle c w)).
Proof.
  unfold unique_emails. intros Hw.
  destruct (handle_store c w)
    as [->|[(d & -> & _ & Hd)|(p & q & -> & Hq & Hs)]].
  - exact Hw.
  - rewrite map_app. simpl. apply NoDup_snoc; [|exact Hw].
    rewrite in_map_iff. intros (x & Hx & Hin).
    rewrite findOne_None in Hd. now apply (Hd x).
  - rewrite (save_emails _ p q Hq); [exact Hw|]. apply Hs.
Qed.

Lemma handle_keeps_lowercase_emails (c : Call) (w : World) :
  (forall s, Js.toLowerCase (Js.toLowerCase s) = Js.toLowerCase s) ->
  lowercase_emails w -> lowercase_emails (snd (handle c w)).
Proof.
  unfold lowercase_emails. intros Hidem Hw x.
  destruct (handle_store c w)
    as [->|[(d & -> & Hd & _)|(p & q & -> & Hq & Hs)]].
  - apply Hw.
  - rewrite in_app_iff. simpl. intros [H|[<-|[]]]; [now apply Hw|].
    rewrite Hd. apply Hidem.
  - intros H. destruct (In_save _ _ _ H) as [->|H']; [|now apply Hw].
    destruct Hs as (_ & -> & _). apply Hw. now apply findById_In in Hq.
Qed.

(** X6.  No sequence of calls deletes a record or changes what identifies
    the account: a record found under an id is found under it after any
    calls, with the same id, email, password hash, salt, phone, lat and
    lng. *)
Theorem accounts_are_kept
  (calls : list Call) (w : World) (id : ObjectId) (p : Customer.doc) :
  Customer.findById id (customers w) = Some p ->
  exists p',
    Customer.findById id (customers (run calls w)) = Some p'
    /\ same_account p p'.
Proof.
  revert w p. induction calls as [|c rest IH]; intros w p Hp; simpl.
  - exists p. split; [exact Hp|apply same_account_refl].
  - destruct (handle_keeps_account c w id p Hp) as (p1 & Hp1 & Hs1).
    destruct (IH _ _ Hp1) as (p2 & Hp2 & Hs2).
    exists p2. split; [exact Hp2|]. now apply same_account_trans with p1.
Qed.

(** X7.  The emails of the collection stay pairwise distinct along every
    sequence of calls: a signup creates a record only after the lookup of
    its lowercased email found none, and no other handler writes an
    email. *)
Theorem emails_stay_unique (calls : list Call) (w : World) :
  unique_emails w -> unique_emails (run calls w).
Proof.
  revert w. induction calls as [|c rest IH]; intros w Hw; simpl;
    [exact Hw|].
  apply IH. now apply handle_keeps_unique_emails.
Qed.

(** X8.  The emails of the collection stay in lower case along every
    sequence of calls, lower case being what the runtime's [toLowerCase]
    leaves unchanged: the only email a handler ever stores is the
    lowercased email of a signup.  The one thing asked of [toLowerCase] is
    that lowercasing twice is lowercasing once. *)
Theorem emails_stay_lowercase (calls : list Call) (w : World) :
  (forall s, Js.toLowerCase (Js.toLowerCase s) = Js.toLowerCase s) ->
  lowercase_emails w -> lowercase_emails (run calls w).
Proof.
  intros Hidem. revert w.
  induction calls as [|c rest IH]; intros w Hw; simpl; [exact Hw|].
  apply IH. now apply handle_keeps_lowercase_emails.
Qed.

(** X9.  Login does not lowercase.  In a collection whose emails are in
    lower case, and after any sequence of calls on it, a login that passes
    the shape validation with an email that [toLowerCase] would change is
    answered 400 "Invalid credentials!", whatever the password: also when
    it is the email, as typed, of an earlier successful signup.  As in X8,
    [toLowerCase] is taken to be idempotent. *)
Theorem CustomerLogin_needs_lowercase
  (calls : list Call) (w : World) (env : Env) (b : Body.t)
  (usr : option Payload.t) :
  (forall s, Js.toLowerCase (Js.toLowerCase s) = Js.toLowerCase s) ->
  lowercase_emails w ->
  validate CustomerLoginInput b = [] ->
  Js.toLowerCase (Body.email b) <> Body.email b ->
  CustomerLogin env (mkRequest b usr) (run calls w)
  = (mkResponse 400 (Message "Invalid credentials!"), run calls w).
Proof.
  intros Hidem Hw V Hcase.
  assert (lowercase_emails (run calls w)) as Hrun.
  { clear V Hcase. revert w Hw.
    induction calls as [|c rest IH]; intros w Hw; simpl; [exact Hw|].
    apply IH. now apply handle_keeps_lowercase_emails. }
  rewrite (CustomerLogin_checked env b usr _ V).
  destruct (Customer.findOne (Body.email b) (customers (run calls w)))
    as [c|] eqn:F; [|reflexivity].
  destruct (findOne_In _ _ _ F) as [Hin He].
  destruct Hcase. rewrite <- He. now apply Hrun.
Qed.

End Sequences.

Lemma accounts_are_kept_witness :
  exists p',
    Customer.findById 1%nat
      (customers
         (run (U := Sample.utility)
            [ mkCall Route.RequestOtp Sample.later
                (mkRequest Sample.no_body (Some Sample.session));
              mkCall Route.UpdateProfile Sample.later
                (mkRequest Sample.edit_body (Some Sample.session));
              mkCall Route.SignUp Sample.env
                (mkRequest Sample.second_signup_body None) ]
            Sample.world)) = Some p'
    /\ same_account Sample.alice p'.
Proof.
  apply (accounts_are_kept (U := Sample.utility)). reflexivity.
Defined.

Lemma emails_stay_unique_witness :
  unique_emails
    (run (U := Sample.utility)
       [ mkCall Route.SignUp Sample.env
           (mkRequest Sample.second_signup_body None);
         mkCall Route.SignUp Sample.later
           (mkRequest (Body.mk "B@x.com" "557" "pw3" Js.Undefined "" "" "")
              None) ]
       Sample.world).
Proof.
  apply (emails_stay_unique (U := Sample.utility)).
  unfold unique_emails. simpl. constructor; [intros []|constructor].
Defined.

Lemma emails_stay_lowercase_witness :
  lowercase_emails (U := Sample.utility)
    (run (U := Sample.utility)
       [ mkCall Route.SignUp Sample.env (mkRequest Sample.signup_body None) ]
       Sample.empty_world).
Proof.
  apply (emails_stay_lowercase (U := Sample.utility)).
  - exact toLowerCase_idempotent.
  - intros c [].
Defined.

Lemma CustomerLogin_needs_lowercase_witness :
  let w :=
    run (U := Sample.utility)
      [ mkCall Route.SignUp Sample.env (mkRequest Sample.signup_body None) ]
      Sample.empty_world in
  Body.email Sample.cased_login_body = Body.email Sample.signup_body
  /\ CustomerLogin (U := Sample.utility) Sample.later
       (mkRequest Sample.cased_login_body None) w
     = (mkResponse 400 (Message "Invalid credentials!"), w).
Proof.
  split; [reflexivity|].
  apply (CustomerLogin_needs_lowercase (U := Sample.utility)).
  - exact toLowerCase_idempotent.
  - intros c [].
  - reflexivity.
  - discriminate.
Defined.

(** ** One call after another *)

Section Compositions.

Context {U : Utility}.

(** X10.  After a signup that created a record, a login that passes the
    shape validation and gives the lowercased email of the signup is
    decided by [ValidatePassword] of its password against the hash made at
    the signup: when it passes, the answer is 200 with a token for the new
    record, unverified; when it fails, 400 "Invalid credentials!". *)
Theorem SignUp_then_Login
  (env env2 : Env) (b b2 : Body.t) (usr usr2 : option Payload.t) (w : World) :
  validate CreateCustomerInput b = [] ->
  ~ email_in_use (Js.toLowerCase (Body.email b)) w ->
  validate CustomerLoginInput b2 = [] ->
  Body.email b2 = Js.toLowerCase (Body.email b) ->
  let w1 := snd (CustomerSignUp env (mkRequest b usr) w) in
  CustomerLogin env2 (mkRequest b2 usr2) w1 =
  (if ValidatePassword (Body.password b2)
        (GeneratePassword (Body.password b) (GenerateSalt env))
   then mkResponse 200
          (Session
             (GenerateSignature
                (Payload.mk (Customer.fresh_id (customers w))
                   (Js.toLowerCase (Body.email b)) false))
             false (Js.toLowerCase (Body.email b)))
   else mkResponse 400 (Message "Invalid credentials!"),
   w1).
Proof.
  intros V Hfresh V2 He w1.
  assert (Customer.findOne (Js.toLowerCase (Body.email b)) (customers w) = None)
    as F.
  { apply findOne_None. intros c Hin Hc. apply Hfresh. now exists c. }
  subst w1. rewrite (CustomerSignUp_created env b usr w V F). simpl.
  rewrite (CustomerLogin_checked env2 b2 usr2 _ V2). simpl.
  rewrite He, findOne_app, F. simpl. rewrite String.eqb_refl. simpl.
  now destruct (ValidatePassword (Body.password b2)
                  (GeneratePassword (Body.password b) (GenerateSalt env))).
Qed.

(** X11.  After a signup that created a record, the holder of the returned
    token who submits the generated otp before the generated expiry is
    answered 200 with a token that says verified, and the new record is
    verified. *)
Theorem SignUp_then_Verify
  (env env2 : Env) (b b2 : Body.t) (usr : option Payload.t) (u : Payload.t)
  (w : World) :
  validate CreateCustomerInput b = [] ->
  ~ email_in_use (Js.toLowerCase (Body.email b)) w ->
  Payload._id u = Customer.fresh_id (customers w) ->
  Js.parseInt (Body.otp b2) = Some (Otp.otp (GenerateOtp env)) ->
  now env2 <= Otp.expiry (GenerateOtp env) ->
  let w1 := snd (CustomerSignUp env (mkRequest b usr) w) in
  let out := CustomerVerify env2 (mkRequest b2 (Some u)) w1 in
  fst out =
    mkResponse 200
      (Session
         (GenerateSignature
            (Payload.mk (Customer.fresh_id (customers w))
               (Js.toLowerCase (Body.email b)) true))
         true (Js.toLowerCase (Body.email b)))
  /\ is_verified (Customer.fresh_id (customers w)) (snd out) = true.
Proof.
  intros V Hfresh Hu Hotp Hnow w1 out.
  assert (Customer.findOne (Js.toLowerCase (Body.email b)) (customers w) = None)
    as F.
  { apply findOne_None. intros c Hin Hc. apply Hfresh. now exists c. }
  set (d := signup_record env b (Customer.fresh_id (customers w))).
  assert (Customer.findById (Payload._id u) (customers w1) = Some d) as Hd.
  { subst w1. rewrite (CustomerSignUp_created env b usr w V F). simpl.
    rewrite Hu, findById_app, findById_fresh. simpl.
    now rewrite Nat.eqb_refl. }
  assert (otp_accepted env2 (Body.otp b2) d = true) as Hacc
    by (apply otp_accepted_iff; now split).
  subst out. rewrite (CustomerVerify_accepted env2 b2 u w1 d Hd Hacc). simpl.
  split; [reflexivity|].
  unfold is_verified. simpl. rewrite <- Hu.
  now rewrite (findById_save_same _ (Customer.set_verified true d) _ d Hd).
Qed.

(** X12.  An otp request replaces the code.  For an authenticated caller
    whose profile exists, the verification that follows a [RequestOtp] is
    answered 200 exactly when the submitted otp parses to the newly
    generated one and the new expiry has not elapsed; the code and the
    expiry stored before play no part. *)
Theorem RequestOtp_then_Verify
  (env env2 : Env) (b b2 : Body.t) (u : Payload.t) (w : World)
  (p : Customer.doc) :
  Customer.findById (Payload._id u) (customers w) = Some p ->
  let w1 := snd (RequestOtp env (mkRequest b (Some u)) w) in
  status (fst (CustomerVerify env2 (mkRequest b2 (Some u)) w1)) = 200
  <-> Js.parseInt (Body.otp b2) = Some (Otp.otp (GenerateOtp env))
      /\ now env2 <= Otp.expiry (GenerateOtp env).
Proof.
  intros Hp w1.
  set (q := Customer.set_otp (Otp.otp (GenerateOtp env))
              (Otp.expiry (GenerateOtp env)) p).
  assert (Customer.findById (Payload._id u) (customers w1) = Some q) as Hq.
  { subst w1. rewrite (RequestOtp_saved env b (Some u) w p Hp). simpl.
    apply findById_save_same with (p := p); [exact Hp|].
    simpl. now apply findById_id with (db := customers w). }
  pose proof (otp_accepted_iff env2 (Body.otp b2) q) as Hiff. simpl in Hiff.
  destruct (otp_accepted env2 (Body.otp b2) q) eqn:Hacc.
  - rewrite (CustomerVerify_accepted env2 b2 u w1 q Hq Hacc). simpl.
    split; [intros _; now apply Hiff|reflexivity].
  - rewrite (CustomerVerify_rejected env2 b2 (Some u) w1)
      by (simpl; now rewrite Hq).
    simpl. split; [discriminate|]. intros H. apply Hiff in H. discriminate.
Qed.

(** X13.  The last profile update wins.  Two updates of the same caller
    that both pass the shape validation leave the world exactly as the
    second one alone would: nothing of the first survives. *)
Theorem UpdateCustomerProfile_last_write_wins
  (env1 env2 : Env) (b1 b2 : Body.t) (usr : option Payload.t) (w : World)
  (p : Customer.doc) :
  authenticated_profile usr w = Some p ->
  validate CustomerEditInput b1 = [] ->
  validate CustomerEditInput b2 = [] ->
  UpdateCustomerProfile env2 (mkRequest b2 usr)
    (snd (UpdateCustomerProfile env1 (mkRequest b1 usr) w))
  = UpdateCustomerProfile env2 (mkRequest b2 usr) w.
Proof.
  intros Hp V1 V2.
  rewrite (UpdateCustomerProfile_saved env1 b1 usr w p Hp V1). simpl.
  rewrite (UpdateCustomerProfile_saved env2 b2 usr w p Hp V2).
  rewrite (UpdateCustomerProfile_saved env2 b2 usr _
             (Customer.set_profile (Body.firstName b1) (Body.lastName b1)
                (Body.address b1) p)); [|apply authenticated_profile_save
                                            with (p := p); auto|exact V2].
  simpl. now rewrite save_save.
Qed.

(** X14.  The verification shows at the next login.  In a collection with
    distinct emails, after an accepted verification a login that passes
    the shape validation, with the email of the record and a password that
    [ValidatePassword] accepts against the stored hash, is answered 200
    with a token that says verified. *)
Theorem Verify_then_Login
  (env env2 : Env) (b b2 : Body.t) (u : Payload.t)
  (usr2 : option Payload.t) (w : World) (p : Customer.doc) :
  unique_emails w ->
  Customer.findById (Payload._id u) (customers w) = Some p ->
  Js.parseInt (Body.otp b) = Some (Customer.otp p) ->
  now env <= Customer.otpExpiry p ->
  validate CustomerLoginInput b2 = [] ->
  Body.email b2 = Customer.email p ->
  ValidatePassword (Body.password b2) (Customer.password p) = true ->
  let w1 := snd (CustomerVerify env (mkRequest b (Some u)) w) in
  fst (CustomerLogin env2 (mkRequest b2 usr2) w1) =
  mkResponse 200
    (Session
       (GenerateSignature
          (Payload.mk (Customer._id p) (Customer.email p) true))
       true (Customer.email p)).
Proof.
  intros Hnd Hp Hotp Hnow V2 He Hpw w1.
  assert (otp_accepted env (Body.otp b) p = true) as Hacc
    by (apply otp_accepted_iff; now split).
  subst w1. rewrite (CustomerVerify_accepted env b u w p Hp Hacc). simpl.
  rewrite (CustomerLogin_checked env2 b2 usr2 _ V2). simpl.
  rewrite He.
  rewrite (findOne_save (customers w) p (Customer.set_verified true p));
    [simpl; now rewrite Hpw|exact Hnd| |reflexivity].
  simpl. now rewrite (findById_id _ _ _ Hp).
Qed.

(** X15.  A caller reads the own writes.  After a profile update answered
    200, [GetCustomerProfile] of the same caller returns the record with
    the three submitted fields; after an otp request answered 200 it
    returns the record with the newly generated otp and expiry. *)
Theorem GetCustomerProfile_reads_writes
  (env env2 : Env) (b b2 : Body.t) (usr : option Payload.t) (w : World)
  (p : Customer.doc) :
  authenticated_profile usr w = Some p ->
  (validate CustomerEditInput b = [] ->
   fst (GetCustomerProfile env2 (mkRequest b2 usr)
          (snd (UpdateCustomerProfile env (mkRequest b usr) w)))
   = mkResponse 200
       (Profile
          (Customer.set_profile (Body.firstName b) (Body.lastName b)
             (Body.address b) p)))
  /\ fst (GetCustomerProfile env2 (mkRequest b2 usr)
            (snd (RequestOtp env (mkRequest b usr) w)))
     = mkResponse 200
         (Profile
            (Customer.set_otp (Otp.otp (GenerateOtp env))
               (Otp.expiry (GenerateOtp env)) p)).
Proof.
  intros Hp. split.
  - intros V. rewrite (UpdateCustomerProfile_saved env b usr w p Hp V). simpl.
    erewrite GetCustomerProfile_found; [reflexivity|].
    now apply authenticated_profile_save with (p := p).
  - rewrite (RequestOtp_saved env b usr w p Hp). simpl.
    erewrite GetCustomerProfile_found; [reflexivity|].
    now apply authenticated_profile_save with (p := p).
Qed.

(** X16.  The profile answer is enough to verify.  For an authenticated
    caller whose profile exists and whose expiry has not elapsed,
    [GetCustomerProfile] returns the stored record, otp included, and a
    [CustomerVerify] whose otp [parseInt] reads as the otp of that
    returned record is answered 200: the SMS is not needed. *)
Theorem GetCustomerProfile_reveals_code
  (env env2 : Env) (b b2 : Body.t) (u : Payload.t) (w : World)
  (p : Customer.doc) :
  Customer.findById (Payload._id u) (customers w) = Some p ->
  now env2 <= Customer.otpExpiry p ->
  exists q,
    GetCustomerProfile env (mkRequest b (Some u)) w
    = (mkResponse 200 (Profile q), w)
    /\ (Js.parseInt (Body.otp b2) = Some (Customer.otp q) ->
        status (fst (CustomerVerify env2 (mkRequest b2 (Some u)) w)) = 200).
Proof.
  intros Hp Hnow. exists p. split.
  - now apply GetCustomerProfile_found.
  - intros Hb.
    assert (otp_accepted env2 (Body.otp b2) p = true) as Hacc
      by (apply otp_accepted_iff; now split).
    now rewrite (CustomerVerify_accepted env2 b2 u w p Hp Hacc).
Qed.

End Compositions.

Lemma SignUp_then_Login_witness :
  let w1 :=
    snd (CustomerSignUp (U := Sample.utility) Sample.env
           (mkRequest Sample.signup_body None) Sample.empty_world) in
  CustomerLogin (U := Sample.utility) Sample.later
    (mkRequest Sample.login_body None) w1
  = (mkResponse 200 (Session "token:a@x.com:unverified" false "a@x.com"), w1).
Proof.
  apply (SignUp_then_Login (U := Sample.utility) Sample.env Sample.later
           Sample.signup_body Sample.login_body None None Sample.empty_world).
  - reflexivity.
  - intros (c & [] & _).
  - reflexivity.
  - reflexivity.
Defined.

Lemma SignUp_then_Verify_witness :
  let code := Body.mk "" "" "" (Js.Str "654321") "" "" "" in
  let holder := Payload.mk 1%nat "a@x.com" false in
  let w1 :=
    snd (CustomerSignUp (U := Sample.utility) Sample.env
           (mkRequest Sample.signup_body None) Sample.empty_world) in
  is_verified 1%nat
    (snd (CustomerVerify (U := Sample.utility) Sample.later
            (mkRequest code (Some holder)) w1)) = true.
Proof.
  apply (SignUp_then_Verify (U := Sample.utility) Sample.env Sample.later
           Sample.signup_body (Body.mk "" "" "" (Js.Str "654321") "" "" "")
           None (Payload.mk 1%nat "a@x.com" false) Sample.empty_world).
  - reflexivity.
  - intros (c & [] & _).
  - reflexivity.
  - reflexivity.
  - vm_compute. discriminate.
Defined.

(** After the otp request the code alice held, 123456, is refused. *)
Lemma RequestOtp_then_Verify_witness :
  let w1 :=
    snd (RequestOtp Sample.env
           (mkRequest Sample.no_body (Some Sample.session)) Sample.world) in
  status (fst (CustomerVerify (U := Sample.utility) Sample.later
                 (mkRequest Sample.otp_body (Some Sample.session)) w1))
  <> 200.
Proof.
  intros w1 H.
  apply (RequestOtp_then_Verify (U := Sample.utility) Sample.env Sample.later
           Sample.no_body Sample.otp_body Sample.session Sample.world
           Sample.alice eq_refl) in H.
  destruct H as [H _]. discriminate H.
Defined.

Lemma UpdateCustomerProfile_last_write_wins_witness :
  let first := Body.mk "" "" "" Js.Undefined "Alicia" "Jones" "2 High St" in
  UpdateCustomerProfile (U := Sample.utility) Sample.later
    (mkRequest Sample.edit_body (Some Sample.session))
    (snd (UpdateCustomerProfile (U := Sample.utility) Sample.env
            (mkRequest first (Some Sample.session)) Sample.world))
  = UpdateCustomerProfile (U := Sample.utility) Sample.later
      (mkRequest Sample.edit_body (Some Sample.session)) Sample.world.
Proof.
  apply (UpdateCustomerProfile_last_write_wins (U := Sample.utility)
           Sample.env Sample.later
           (Body.mk "" "" "" Js.Undefined "Alicia" "Jones" "2 High St")
           Sample.edit_body (Some Sample.session) Sample.world Sample.alice);
    reflexivity.
Defined.

Lemma Verify_then_Login_witness :
  let w1 :=
    snd (CustomerVerify (U := Sample.utility) Sample.env
           (mkRequest Sample.otp_body (Some Sample.session)) Sample.world) in
  fst (CustomerLogin (U := Sample.utility) Sample.later
         (mkRequest Sample.login_body None) w1)
  = mkResponse 200 (Session "token:a@x.com:verified" true "a@x.com").
Proof.
  apply (Verify_then_Login (U := Sample.utility) Sample.env Sample.later
           Sample.otp_body Sample.login_body Sample.session None Sample.world
           Sample.alice).
  - unfold unique_emails. simpl. constructor; [intros []|constructor].
  - reflexivity.
  - reflexivity.
  - vm_compute. discriminate.
  - reflexivity.
  - reflexivity.
  - reflexivity.
Defined.

Lemma GetCustomerProfile_reads_writes_witness :
  fst (GetCustomerProfile Sample.later
         (mkRequest Sample.no_body (Some Sample.session))
         (snd (UpdateCustomerProfile (U := Sample.utility) Sample.env
                 (mkRequest Sample.edit_body (Some Sample.session))
                 Sample.world)))
  = mkResponse 200 (Profile (Customer.set_profile "Alice" "" "1 Main St"
                               Sample.alice)).
Proof.
  apply (proj1 (GetCustomerProfile_reads_writes (U := Sample.utility)
                  Sample.env Sample.later Sample.edit_body Sample.no_body
                  (Some Sample.session) Sample.world Sample.alice eq_refl)).
  reflexivity.
Defined.

Lemma GetCustomerProfile_reveals_code_witness :
  exists q,
    GetCustomerProfile Sample.env
      (mkRequest Sample.no_body (Some Sample.session)) Sample.world
    = (mkResponse 200 (Profile q), Sample.world)
    /\ (AsciiJs.parseInt (Js.Num 123456 0) = Some (Customer.otp q) ->
        status (fst (CustomerVerify (U := Sample.utility) Sample.later
                       (mkRequest (Body.mk "" "" "" (Js.Num 123456 0) "" "" "")
                          (Some Sample.session)) Sample.world)) = 200).
Proof.
  apply (GetCustomerProfile_reveals_code (U := Sample.utility) Sample.env
           Sample.later Sample.no_body
           (Body.mk "" "" "" (Js.Num 123456 0) "" "" "") Sample.session
           Sample.world Sample.alice).
  - reflexivity.
  - vm_compute. discriminate.
Defined.

(** ** When a handler succeeds *)

Section Success.

Context {U : Utility}.

(** X17.  When each handler answers with its success status.  A signup is
    answered 201 exactly when the body passes the shape validation and no
    record has the lowercased email; a login 200 exactly when the body
    passes the validation, a record has the email as submitted and
    [ValidatePassword] accepts the password against the hash of the first
    such record; an otp request and a profile read 200 exactly when the
    caller is authenticated and the lookup finds the record; a profile
    update 200 exactly when, moreover, the body passes the validation. *)
Theorem success_conditions
  (env : Env) (b : Body.t) (usr : option Payload.t) (w : World) :
  (status (fst (CustomerSignUp env (mkRequest b usr) w)) = 201 <->
   validate CreateCustomerInput b = []
   /\ ~ email_in_use (Js.toLowerCase (Body.email b)) w)
  /\ (status (fst (CustomerLogin env (mkRequest b usr) w)) = 200 <->
      validate CustomerLoginInput b = []
      /\ exists c,
          Customer.findOne (Body.email b) (customers w) = Some c
          /\ ValidatePassword (Body.password b) (Customer.password c) = true)
  /\ (status (fst (RequestOtp env (mkRequest b usr) w)) = 200 <->
      exists p, authenticated_profile usr w = Some p)
  /\ (status (fst (GetCustomerProfile env (mkRequest b usr) w)) = 200 <->
      exists p, authenticated_profile usr w = Some p)
  /\ (status (fst (UpdateCustomerProfile env (mkRequest b usr) w)) = 200 <->
      (exists p, authenticated_profile usr w = Some p)
      /\ validate CustomerEditInput b = []).
Proof.
  split; [|split; [|split; [|split]]].
  - destruct (validate CreateCustomerInput b) as [|err errs] eqn:V.
    + destruct (Customer.findOne (Js.toLowerCase (Body.email b)) (customers w))
        as [d|] eqn:F.
      * rewrite (CustomerSignUp_conflict env b usr w d V F). simpl.
        split; [discriminate|]. intros [_ H]. destruct H.
        destruct (findOne_In _ _ _ F). now exists d.
      * rewrite (CustomerSignUp_created env b usr w V F). simpl.
        split; [|reflexivity]. intros _. split; [reflexivity|].
        intros (c & Hin & He). rewrite findOne_None in F. now apply (F c).
    + rewrite CustomerSignUp_invalid by (simpl; rewrite V; discriminate).
      simpl. split; [discriminate|]. intros [H _]. discriminate.
  - destruct (validate CustomerLoginInput b) as [|err errs] eqn:V.
    + rewrite (CustomerLogin_checked env b usr w V). simpl.
      destruct (Customer.findOne (Body.email b) (customers w)) as [c|].
      * destruct (ValidatePassword (Body.password b) (Customer.password c))
          eqn:P; simpl.
        -- split; [|reflexivity]. intros _. split; [reflexivity|].
           now exists c.
        -- split; [discriminate|]. intros (_ & c' & [= <-] & H). congruence.
      * simpl. split; [discriminate|]. intros (_ & c' & H & _). discriminate.
    + rewrite CustomerLogin_invalid by (simpl; rewrite V; discriminate).
      simpl. split; [discriminate|]. intros [H _]. discriminate.
  - destruct (authenticated_profile usr w) as [p|] eqn:Hp.
    + rewrite (RequestOtp_saved env b usr w p Hp). simpl.
      split; [|reflexivity]. intros _. now exists p.
    + rewrite (RequestOtp_refused env b usr w Hp). simpl.
      split; [discriminate|]. intros (p & H). discriminate.
  - destruct (authenticated_profile usr w) as [p|] eqn:Hp.
    + rewrite (GetCustomerProfile_found env b usr w p Hp). simpl.
      split; [|reflexivity]. intros _. now exists p.
    + destruct usr as [u|]; simpl in Hp; unfold_handler; [rewrite Hp|];
        simpl; (split; [discriminate|]); intros (p & H); discriminate.
  - destruct (authenticated_profile usr w) as [p|] eqn:Hp.
    + destruct (validate CustomerEditInput b) as [|err errs] eqn:V.
      * rewrite (UpdateCustomerProfile_saved env b usr w p Hp V). simpl.
        split; [|reflexivity]. intros _. split; [now exists p|reflexivity].
      * destruct (UpdateCustomerProfile_refused env b usr w) as [-> _].
        { rewrite Hp, V. discriminate. }
        split; [discriminate|]. intros [_ H]. discriminate.
    + destruct (UpdateCustomerProfile_refused env b usr w) as [-> _].
      { now rewrite Hp. }
      split; [discriminate|]. intros [(p & H) _]. discriminate.
Qed.


End Success.

